(** * BaseRawReader: a shallow embedding of ptsa/data/readers/BaseRawReader.py

    The reader is embedded as explicit state passing: every method of the
    Python class becomes a computation in a small state-and-exception monad
    whose state holds the reader object ([self]) and the log of observable
    side effects (warnings, printed diagnostics, files opened and closed).
    The file system is a read-only parameter of every computation.

    NumPy's float64 cells are IEEE binary64 values in the sense of
    [SpecFloat] (the inductive specification of floats, without payload in
    the not-a-number value). *)

From Stdlib Require Import ZArith List Lia Strings.Byte Strings.Ascii.
From Stdlib Require Import Floats.SpecFloat.
From stdpp Require Import base option list strings gmap pretty.

Local Open Scope Z_scope.

(** ** Python values, exceptions and observable events *)

Abbreviation float := spec_float.

Definition prec64 : Z := 53.
Definition emax64 : Z := 1024.

(** [np.nan], the sentinel of unread cells. *)
Definition nan : float := S754_nan.

Definition is_nan (x : float) : bool :=
  match x with S754_nan => true | _ => false end.

(** Conversion of a Python int to a float64 (round to nearest even). *)
Definition float_of_Z (z : Z) : float := binary_normalize prec64 emax64 z 0 false.

(** float64 multiplication. *)
Definition fmul (x y : float) : float := SFmul prec64 emax64 x y.

(** The values a parameter mapping holds. *)
Inductive pyval :=
| PStr (s : string)
| PFloat (x : float).

Inductive exn :=
| IndexError
| KeyError (key : string)
| NoSuchNodeError
| OSError (fname : string)
| OverflowError
| RuntimeError (msg : string)
| StructError
| TypeError
| ValueError
| ZeroDivisionError.

Inductive event :=
| EvWarn (msg : string)
| EvPrint (msg : string)
| EvGetsize (fname : string)
| EvOpen (fname : string)
| EvClose (fname : string)
| EvOpenTable (fname : string)
| EvCloseTable (fname : string).

Inductive result (A : Type) :=
| Ok (a : A)
| Raise (e : exn).
Arguments Ok {A} a.
Arguments Raise {A} e.

Definition is_ok {A} (r : result A) : bool :=
  match r with Ok _ => true | Raise _ => false end.

(** ** FormatRegistry: the fixed table of sample formats *)

Record FileFormat := { data_size : Z; format_string : string }.

(** The dict literal of [__init__], in insertion order. *)
Definition file_format_dict : list (string * FileFormat) :=
  [ ("single",  {| data_size := 4; format_string := "f" |});
    ("float32", {| data_size := 4; format_string := "f" |});
    ("short",   {| data_size := 2; format_string := "h" |});
    ("int16",   {| data_size := 2; format_string := "h" |});
    ("int32",   {| data_size := 4; format_string := "i" |});
    ("double",  {| data_size := 8; format_string := "d" |});
    ("float64", {| data_size := 8; format_string := "d" |}) ].

Fixpoint dict_get {V} (d : list (string * V)) (k : string) : option V :=
  match d with
  | [] => None
  | (k', v) :: d' => if String.eqb k' k then Some v else dict_get d' k
  end.

Definition dict_keys {V} (d : list (string * V)) : list string := map fst d.

Definition int16_format : FileFormat :=
  default {| data_size := 2; format_string := "h" |} (dict_get file_format_dict "int16").

(** [repr] of a list of plain strings: ['a', 'b']. *)
Fixpoint join (sep : string) (l : list string) : string :=
  match l with
  | [] => ""
  | [x] => x
  | x :: l' => x +:+ sep +:+ join sep l'
  end.

Definition repr_str (s : string) : string := "'" +:+ s +:+ "'".
Definition repr_list (l : list string) : string :=
  "[" +:+ join ", " (map repr_str l) +:+ "]".

(** ** The reader object and the file system

    [start_offsets] is a NumPy array of 64-bit integers (the descriptor's
    dtype [np.int], where a C long has 64 bits) and [read_size] a Python
    int. *)

Record BaseRawReader := {
  dataroot : string;
  channels : list string;
  start_offsets : list Z;
  read_size : Z;
  file_format : FileFormat;
  params_dict : gmap string pyval
}.

Definition set_read_size (n : Z) (r : BaseRawReader) : BaseRawReader :=
  {| dataroot := dataroot r; channels := channels r;
     start_offsets := start_offsets r; read_size := n;
     file_format := file_format r; params_dict := params_dict r |}.

Definition set_file_format (f : FileFormat) (r : BaseRawReader) : BaseRawReader :=
  {| dataroot := dataroot r; channels := channels r;
     start_offsets := start_offsets r; read_size := read_size r;
     file_format := f; params_dict := params_dict r |}.

Definition set_params_dict (p : gmap string pyval) (r : BaseRawReader) : BaseRawReader :=
  {| dataroot := dataroot r; channels := channels r;
     start_offsets := start_offsets r; read_size := read_size r;
     file_format := file_format r; params_dict := p |}.

(** The combined container as PyTables exposes it: the 2-D dataset
    [eeg_timeseries] (its shape and its cells), the 1-D dataset [ports] and
    the optional root attribute [by_row]. The two datasets are the only
    children of the root group: a container whose root has a child node
    named attrs is not described by this record. *)
Record Table := {
  ts_dim0 : nat;
  ts_dim1 : nat;
  eeg_timeseries : nat -> nat -> float;
  ports : list Z;
  by_row : option bool
}.

(** The file system: the bytes of every plain file and the container view of
    every file PyTables can open. *)
Record FileSystem := {
  files : gmap string (list byte);
  tables : gmap string Table
}.

(** ** The monad: state (the object and the log) and exceptions *)

Record state := { self : BaseRawReader; log : list event }.

Definition M (A : Type) : Type := state -> result A * state.

Definition ret {A} (a : A) : M A := fun s => (Ok a, s).
Definition raise {A} (e : exn) : M A := fun s => (Raise e, s).
Definition bind {A B} (m : M A) (k : A -> M B) : M B :=
  fun s => match m s with
           | (Ok a, s') => k a s'
           | (Raise e, s') => (Raise e, s')
           end.

Declare Scope py_scope.
Delimit Scope py_scope with py.
Notation "x <- c ;; k" := (bind c (fun x => k))
  (at level 100, c at next level, right associativity) : py_scope.
Notation "c ;;; k" := (bind c (fun _ => k))
  (at level 100, right associativity) : py_scope.
Local Open Scope py_scope.

Definition get_self : M BaseRawReader := fun s => (Ok (self s), s).
Definition modify_self (f : BaseRawReader -> BaseRawReader) : M unit :=
  fun s => (Ok tt, {| self := f (self s); log := log s |}).
Definition emit (e : event) : M unit :=
  fun s => (Ok tt, {| self := self s; log := log s ++ [e] |}).

(** [try: body except KeyError: handler] *)
Definition try_except_KeyError {A} (body : M A) (handler : M A) : M A :=
  fun s => match body s with
           | (Raise (KeyError _), s') => handler s'
           | r => r
           end.

(** [d[k]] on a parameter mapping. *)
Definition getitem (d : gmap string pyval) (k : string) : M pyval :=
  match d !! k with
  | Some v => ret v
  | None => raise (KeyError k)
  end.

(** ** __init__ (lines 42-71)

    [init_attrs] stores the keyword arguments; the parameter mapping is what
    [ParamsReader(dataroot).read()] returned. The text that [%s] gives a
    float is not modelled. *)

Definition init_attrs (root : string) (chans : list string) (offs : list Z)
    (rs : Z) : BaseRawReader :=
  {| dataroot := root; channels := chans; start_offsets := offs;
     read_size := rs; file_format := int16_format; params_dict := ∅ |}.

Definition unsupported_format_msg (format_name : string) : string :=
  "Unsupported format: " +:+ format_name +:+ ". Allowed format names are: "
    +:+ repr_list (dict_keys file_format_dict).

Definition pyval_str (v : pyval) : string :=
  match v with
  | PStr s => s
  | PFloat _ => "<float>"
  end.

(** [self.file_format_dict[format_name]]: only a string can be a key of the
    table. *)
Definition format_dict_getitem (v : pyval) : M FileFormat :=
  match v with
  | PStr name =>
      match dict_get file_format_dict name with
      | Some f => ret f
      | None => raise (KeyError name)
      end
  | PFloat _ => raise (KeyError (pyval_str v))
  end.

Definition missing_format_msg : string :=
  "Could not find data format definition in the params file. Will read the file assuming data format is int16".

Definition init_body (params : gmap string pyval) : M unit :=
  modify_self (set_file_format int16_format) ;;;
  modify_self (set_params_dict params) ;;;
  try_except_KeyError
    (r <- get_self ;;
     format_name <- getitem (params_dict r) "format" ;;
     try_except_KeyError
       (f <- format_dict_getitem format_name ;;
        modify_self (set_file_format f))
       (raise (RuntimeError (unsupported_format_msg (pyval_str format_name)))))
    (emit (EvWarn missing_format_msg)).

Definition new_reader (root : string) (chans : list string) (offs : list Z)
    (rs : Z) (params : gmap string pyval) : result BaseRawReader * list event :=
  match init_body params {| self := init_attrs root chans offs rs; log := [] |} with
  | (Ok _, s) => (Ok (self s), log s)
  | (Raise e, s) => (Raise e, log s)
  end.

(** ** Decoding: struct.unpack with a little-endian format *)

Fixpoint le_unsigned (bs : list byte) : Z :=
  match bs with
  | [] => 0
  | b :: bs' => Z.of_N (Byte.to_N b) + 256 * le_unsigned bs'
  end.

Definition to_signed (bits : Z) (u : Z) : Z :=
  if u <? 2 ^ (bits - 1) then u else u - 2 ^ bits.

(** An IEEE 754 interchange value with [ebits] exponent bits and [mbits]
    fraction bits, as the float64 of the same value. *)
Definition decode_ieee (ebits mbits : Z) (u : Z) : float :=
  let s := Z.testbit u (ebits + mbits) in
  let e := Z.land (Z.shiftr u mbits) (2 ^ ebits - 1) in
  let m := Z.land u (2 ^ mbits - 1) in
  let bias := 2 ^ (ebits - 1) - 1 in
  if e =? 2 ^ ebits - 1 then
    if m =? 0 then S754_infinity s else S754_nan
  else if e =? 0 then
    binary_normalize prec64 emax64 (cond_Zopp s m) (1 - bias - mbits) s
  else
    binary_normalize prec64 emax64 (cond_Zopp s (m + 2 ^ mbits)) (e - bias - mbits) s.

(** The size in bytes of one item of a struct format character (standard
    sizes, as selected by the prefix [<]). *)
Definition struct_item_size (code : string) : option nat :=
  if String.eqb code "h" then Some 2%nat
  else if String.eqb code "i" then Some 4%nat
  else if String.eqb code "f" then Some 4%nat
  else if String.eqb code "d" then Some 8%nat
  else None.

(** One item, converted to the float64 cell the result array stores. *)
Definition decode_item (code : string) (bs : list byte) : float :=
  if String.eqb code "h" then float_of_Z (to_signed 16 (le_unsigned bs))
  else if String.eqb code "i" then float_of_Z (to_signed 32 (le_unsigned bs))
  else if String.eqb code "f" then decode_ieee 8 23 (le_unsigned bs)
  else decode_ieee 11 52 (le_unsigned bs).

Fixpoint chunks (count size : nat) (data : list byte) : list (list byte) :=
  match count with
  | O => []
  | S count' => take size data :: chunks count' size (drop size data)
  end.

(** [np.array(struct.unpack('<' + str(count) + code, data))]: the byte
    string must be exactly [count] items long. *)
Definition struct_unpack (count : Z) (code : string) (data : list byte) : M (list float) :=
  match struct_item_size code with
  | None => raise StructError
  | Some size =>
      if Z.of_nat (length data) =? count * Z.of_nat size
      then ret (map (decode_item code) (chunks (Z.to_nat count) size data))
      else raise StructError
  end.

(** ** Arrays

    Arrays and byte strings are as large as asked for: running out of
    memory is not modelled. *)

Record ndarray3 := { shape3 : nat * nat * nat; cells : list (list (list float)) }.

Definition nan_slice (n : nat) : list float := replicate n nan.

(** [np.empty((d0, d1, d2), dtype=np.float) * np.nan] *)
Definition np_empty_nan (d0 d1 : nat) (d2 : Z) : M ndarray3 :=
  if d2 <? 0 then raise ValueError
  else ret {| shape3 := (d0, d1, Z.to_nat d2);
              cells := replicate d0 (replicate d1 (nan_slice (Z.to_nat d2))) |}.

(** [np.ones(shape=(d0, d1), dtype=np.bool)] *)
Definition np_ones (d0 d1 : nat) : list (list bool) := replicate d0 (replicate d1 true).

(** [a[c, e, :] = data], with NumPy's broadcasting of a one-element value. *)
Definition setitem_slice (a : ndarray3) (c e : nat) (data : list float) : M ndarray3 :=
  let '(d0, d1, d2) := shape3 a in
  if ((c <? d0) && (e <? d1))%nat then
    if (length data =? d2)%nat then
      ret {| shape3 := shape3 a; cells := alter (<[e := data]>) c (cells a) |}
    else
      match data with
      | [x] => ret {| shape3 := shape3 a;
                      cells := alter (<[e := replicate d2 x]>) c (cells a) |}
      | _ => raise ValueError
      end
  else raise IndexError.

(** [m[c, e] = False] *)
Definition setitem_false (m : list (list bool)) (c e : nat) : list (list bool) :=
  alter (<[e := false]>) c m.

(** ** Files opened for binary read *)

Record file_obj := { f_bytes : list byte; f_pos : Z }.

(** [efile.seek(pos, 0)]: a negative position is refused. *)
Definition efile_seek (fname : string) (efile : file_obj) (pos : Z) : M file_obj :=
  if pos <? 0 then raise (OSError fname)
  else ret {| f_bytes := f_bytes efile; f_pos := pos |}.

(** [efile.read(n)]: at most [n] bytes from the cursor, fewer at the end of
    the file, all of the rest when [n] is negative. *)
Definition efile_read (efile : file_obj) (n : Z) : list byte * file_obj :=
  let rest := drop (Z.to_nat (f_pos efile)) (f_bytes efile) in
  let data := if n <? 0 then rest else take (Z.to_nat n) rest in
  (data, {| f_bytes := f_bytes efile;
            f_pos := f_pos efile + Z.of_nat (length data) |}).

(** [with open(fname, 'rb') as efile: body]; the file is closed when the
    block is left, also by an exception. *)
Definition with_open {A} (fs : FileSystem) (fname : string)
    (body : file_obj -> M A) : M A :=
  match files fs !! fname with
  | None => raise (OSError fname)
  | Some bs =>
      fun s =>
        let '(r, s') := (emit (EvOpen fname) ;;; body {| f_bytes := bs; f_pos := 0 |}) s in
        (r, {| self := self s'; log := log s' ++ [EvClose fname] |})
  end.

(** ** get_file_size (lines 73-84) *)

Definition channel_file (r : BaseRawReader) (ch : string) : string :=
  dataroot r +:+ "." +:+ ch.

Definition get_file_size (fs : FileSystem) : M Z :=
  r <- get_self ;;
  match channels r with
  | [] => raise IndexError
  | ch :: _ =>
      let eegfname := channel_file r ch in
      emit (EvGetsize eegfname) ;;;
      match files fs !! eegfname with
      | Some bs => ret (Z.of_nat (length bs))
      | None => raise (OSError eegfname)
      end
  end.

(** ** read_binary (lines 143-199) *)

Definition negative_offset_msg (start_offset : Z) (eegfname : string) : string :=
  "Cannot read from negative offset " +:+ pretty start_offset +:+ " in file " +:+ eegfname.

Definition short_read_msg (start_offset : Z) (eegfname : string) : string :=
  "Cannot read full chunk of data for offset " +:+ pretty start_offset +:+
  "End of read interval  is outside the bounds of file " +:+ eegfname.

(** [int(a / b)] on non-negative sizes. *)
Definition int_div (a b : Z) : M Z :=
  if b =? 0 then raise ZeroDivisionError else ret (Z.quot a b).

Definition arrays : Type := ndarray3 * list (list bool).

(** The value NumPy keeps of an int64 result: arithmetic on the elements of
    an int64 array wraps around in 64-bit two's complement. *)
Definition wrap64 (z : Z) : Z :=
  (z + 9223372036854775808) mod 18446744073709551616 - 9223372036854775808.

(** [self.file_format.data_size * start_offset] (line 178): a Python int
    times an element of [start_offsets], hence an int64. *)
Definition seek_position (r : BaseRawReader) (start_offset : Z) : Z :=
  wrap64 (data_size (file_format r) * start_offset).

(** The body of the loop over start offsets (lines 171-197). *)
Definition read_offset (eegfname : string) (efile : file_obj) (c e : nat)
    (start_offset : Z) (arrs : arrays) : M (file_obj * arrays) :=
  let '(eventdata, read_ok_mask) := arrs in
  if start_offset <? 0 then
    emit (EvPrint (negative_offset_msg start_offset eegfname)) ;;;
    ret (efile, (eventdata, setitem_false read_ok_mask c e))
  else
    r <- get_self ;;
    efile <- efile_seek eegfname efile (seek_position r start_offset) ;;
    let '(data, efile) := efile_read efile (data_size (file_format r) * read_size r) in
    count <- int_div (Z.of_nat (length data)) (data_size (file_format r)) ;;
    data <- struct_unpack count (format_string (file_format r)) data ;;
    if Z.of_nat (length data) <? read_size r then
      emit (EvPrint (short_read_msg start_offset eegfname)) ;;;
      ret (efile, (eventdata, setitem_false read_ok_mask c e))
    else
      eventdata <- setitem_slice eventdata c e data ;;
      ret (efile, (eventdata, read_ok_mask)).

Fixpoint offsets_loop (eegfname : string) (efile : file_obj) (c e : nat)
    (offs : list Z) (arrs : arrays) : M arrays :=
  match offs with
  | [] => ret arrs
  | start_offset :: offs' =>
      step <- read_offset eegfname efile c e start_offset arrs ;;
      offsets_loop eegfname (fst step) c (S e) offs' (snd step)
  end.

Fixpoint channels_loop (fs : FileSystem) (c : nat) (chans : list string)
    (arrs : arrays) : M arrays :=
  match chans with
  | [] => ret arrs
  | channel :: chans' =>
      r <- get_self ;;
      let eegfname := channel_file r channel in
      arrs <- with_open fs eegfname
                (fun efile => offsets_loop eegfname efile c 0 (start_offsets r) arrs) ;;
      channels_loop fs (S c) chans' arrs
  end.

Definition resolve_read_size (fs : FileSystem) : M unit :=
  r <- get_self ;;
  if read_size r <? 0 then
    size <- get_file_size fs ;;
    n <- int_div size (data_size (file_format r)) ;;
    modify_self (set_read_size n)
  else ret tt.

Definition read_binary (fs : FileSystem) : M arrays :=
  resolve_read_size fs ;;;
  r <- get_self ;;
  eventdata <- np_empty_nan (length (channels r)) (length (start_offsets r)) (read_size r) ;;
  let read_ok_mask := np_ones (length (channels r)) (length (start_offsets r)) in
  channels_loop fs 0 (channels r) (eventdata, read_ok_mask).

(** ** read_hdf5 (lines 112-141) *)

Definition is_digit (a : Ascii.ascii) : bool :=
  let n := Ascii.N_of_ascii a in ((48 <=? n) && (n <=? 57))%N.

(** The ASCII characters [int] skips around a literal: tab, line feed,
    vertical tab, form feed, carriage return, the four separators and the
    space. *)
Definition is_space (a : Ascii.ascii) : bool :=
  let n := Ascii.N_of_ascii a in
  ((9 <=? n) && (n <=? 13) || (28 <=? n) && (n <=? 32))%N.

Fixpoint lstrip (s : string) : string :=
  match s with
  | String a s' => if is_space a then lstrip s' else s
  | EmptyString => s
  end.

Fixpoint all_space (s : string) : bool :=
  match s with
  | String a s' => is_space a && all_space s'
  | EmptyString => true
  end.

(** The digits of a decimal literal: at least one digit, single underscores
    between digits, white space after the last digit. [after_digit] tells
    whether the character before was a digit. *)
Fixpoint parse_digits (s : string) (acc : Z) (after_digit : bool) : option Z :=
  match s with
  | EmptyString => if after_digit then Some acc else None
  | String a s' =>
      if is_digit a
      then parse_digits s' (10 * acc + Z.of_N (Ascii.N_of_ascii a - 48)) true
      else if Ascii.eqb a "_"
      then if after_digit then parse_digits s' acc false else None
      else if is_space a && after_digit && all_space s' then Some acc
      else None
  end.

(** [int(s)] on the text of a channel label: white space, an optional sign,
    the digits, white space. Labels are ASCII text. *)
Definition parse_int (s : string) : option Z :=
  match lstrip s with
  | String "-"%char s' => Z.opp <$> parse_digits s' 0 false
  | String "+"%char s' => parse_digits s' 0 false
  | s' => parse_digits s' 0 false
  end.

(** The integers an int64 cell holds. *)
Definition in_int64 (z : Z) : bool :=
  (-9223372036854775808 <=? z) && (z <? 9223372036854775808).

(** [self.channels.astype(int)]: every label is parsed as [int] parses it
    and stored in an int64 cell; the first label that is no literal, or
    whose value does not fit, ends the conversion. *)
Fixpoint astype_int (chans : list string) : M (list Z) :=
  match chans with
  | [] => ret []
  | ch :: chans' =>
      match parse_int ch with
      | None => raise ValueError
      | Some n =>
          if in_int64 n then ns <- astype_int chans' ;; ret (n :: ns)
          else raise OverflowError
      end
  end.

(** [np.in1d(ar1, ar2)] *)
Definition in1d (ar1 ar2 : list Z) : list bool :=
  map (fun p => bool_decide (p ∈ ar2)) ar1.

(** [eegfile.root.attrs] (lines 118 and 129): on a PyTables group the name
    attrs is no attribute of the object (the attributes of a group are its
    [_v_attrs]), so natural naming looks for a child node of that name. The
    root has none, the lookup raises and has no value; the root attribute
    [by_row] is never read. *)
Definition root_attrs (t : Table) : M Empty_set := raise NoSuchNodeError.

(** [len(a, b, c)]: the builtin takes exactly one argument, so the call
    raises and has no value. *)
Definition len_3 {A} (a : list A) (b : nat) (c : Z) : M Empty_set := raise TypeError.

Definition read_hdf5 (fs : FileSystem) : M arrays :=
  r <- get_self ;;
  match tables fs !! dataroot r with
  | None => raise (OSError (dataroot r))
  | Some eegfile =>
      emit (EvOpenTable (dataroot r)) ;;;
      wanted <- astype_int (channels r) ;;
      let channels_to_read := in1d (ports eegfile) wanted in
      if read_size r <? 0 then
        (* the condition of line 118 raises; the selection, the close and
           the return (lines 119-123) are never reached *)
        a <- root_attrs eegfile ;;
        match a with end
      else
        (* line 126 passes three arguments to len; the statements after it
           (the loop over start offsets, lines 127-141) are never reached *)
        n <- len_3 (channels r) (length (start_offsets r)) (read_size r) ;;
        match n with end
  end.

(** ** read (lines 86-109) *)

Definition endswith (s suffix : string) : bool :=
  (String.length suffix <=? String.length s)%nat &&
  String.eqb (String.substring (String.length s - String.length suffix)
                        (String.length suffix) s) suffix.

(** [eventdata *= gain] *)
Definition imul (a : ndarray3) (gain : pyval) : M ndarray3 :=
  match gain with
  | PFloat g => ret {| shape3 := shape3 a;
                       cells := map (map (map (fun x => fmul x g))) (cells a) |}
  | PStr _ => raise TypeError
  end.

(** [np.arange(n)] *)
Definition arange (n : Z) : list Z := map Z.of_nat (seq 0 (Z.to_nat n)).

(** The labelled tensor xarray builds. *)
Record DataArray := {
  values : ndarray3;
  coord_channels : list string;
  coord_start_offsets : list Z;
  coord_offsets : list Z;
  coord_samplerate : pyval;
  attrs : gmap string pyval
}.

(** [DataArray(data, dims=[...], coords={...})]: every dimension coordinate
    must be as long as its axis. *)
Definition new_DataArray (data : ndarray3) (chans : list string) (offs : list Z)
    (samples : list Z) (samplerate : pyval) : M DataArray :=
  let '(d0, d1, d2) := shape3 data in
  if ((length chans =? d0) && (length offs =? d1) && (length samples =? d2))%nat then
    ret {| values := data; coord_channels := chans; coord_start_offsets := offs;
           coord_offsets := samples; coord_samplerate := samplerate; attrs := ∅ |}
  else raise ValueError.

Definition set_attrs (a : gmap string pyval) (d : DataArray) : DataArray :=
  {| values := values d; coord_channels := coord_channels d;
     coord_start_offsets := coord_start_offsets d; coord_offsets := coord_offsets d;
     coord_samplerate := coord_samplerate d; attrs := a |}.

(** Lines 92-109: the gain, the labels and the metadata. *)
Definition read_assemble (res : arrays) : M (DataArray * list (list bool)) :=
  let '(eventdata, read_ok_mask) := res in
  r <- get_self ;;
  gain <- getitem (params_dict r) "gain" ;;
  eventdata <- imul eventdata gain ;;
  samplerate <- getitem (params_dict r) "samplerate" ;;
  eventdata <- new_DataArray eventdata (channels r) (start_offsets r)
                 (arange (read_size r)) samplerate ;;
  ret (set_attrs (params_dict r) eventdata, read_ok_mask).

Definition read (fs : FileSystem) : M (DataArray * list (list bool)) :=
  r <- get_self ;;
  res <- (if negb (endswith (dataroot r) "h5") then read_binary fs else read_hdf5 fs) ;;
  read_assemble res.

(** Running a method on a reader, from an empty log. *)
Definition run {A} (m : M A) (r : BaseRawReader) : result A * state :=
  m {| self := r; log := [] |}.

(** * Functional counterparts

    The loops of the reader build their result by index writes. The
    functions below build the same result by recursion on the request; the
    verification shows that the two agree and reads the claims off the
    functions. *)

(** The state with more events logged. *)
Definition add_log (evs : list event) (s : state) : state :=
  {| self := self s; log := log s ++ evs |}.

(** The formats [__init__] can select: the values of the table. *)
Definition registered (f : FileFormat) : Prop :=
  exists name, dict_get file_format_dict name = Some f.

(** The formats whose samples are integers (short, int16, int32). *)
Definition integer_format (f : FileFormat) : Prop :=
  format_string f = "h" \/ format_string f = "i".

(** The bytes [efile.read] returns after the seek for a start offset, when
    the seek succeeds. *)
Definition window (r : BaseRawReader) (bs : list byte) (start_offset : Z) : list byte :=
  take (Z.to_nat (data_size (file_format r) * read_size r))
       (drop (Z.to_nat (seek_position r start_offset)) bs).

(** The samples [struct.unpack] decodes from the returned bytes. *)
Definition decode_window (r : BaseRawReader) (data : list byte) : list float :=
  map (decode_item (format_string (file_format r)))
      (chunks (Z.to_nat (Z.quot (Z.of_nat (length data)) (data_size (file_format r))))
              (Z.to_nat (data_size (file_format r))) data).

(** Whether the returned bytes are a whole number of samples. *)
Definition aligned (r : BaseRawReader) (data : list byte) : bool :=
  Z.of_nat (length data) =?
    Z.quot (Z.of_nat (length data)) (data_size (file_format r)) * data_size (file_format r).

(** Validity flag, slice contents and diagnostics of one window. *)
Definition slice_of (r : BaseRawReader) (eegfname : string) (bs : list byte)
    (start_offset : Z) : result (bool * list float) * list event :=
  if start_offset <? 0 then
    (Ok (false, nan_slice (Z.to_nat (read_size r))),
     [EvPrint (negative_offset_msg start_offset eegfname)])
  else if seek_position r start_offset <? 0 then (Raise (OSError eegfname), [])
  else
    let data := window r bs start_offset in
    if aligned r data then
      if Z.of_nat (length (decode_window r data)) <? read_size r then
        (Ok (false, nan_slice (Z.to_nat (read_size r))),
         [EvPrint (short_read_msg start_offset eegfname)])
      else (Ok (true, decode_window r data), [])
    else (Raise StructError, []).

(** An invalid slice is the untouched, all-sentinel slice. *)
Definition slice_wf (n : nat) (sl : bool * list float) : Prop :=
  fst sl = false -> snd sl = nan_slice n.

(** The writes of one loop iteration. *)
Definition apply_slice (c e : nat) (sl : bool * list float) (arrs : arrays) : arrays :=
  if fst sl
  then ({| shape3 := shape3 (fst arrs);
           cells := alter (<[e := snd sl]>) c (cells (fst arrs)) |}, snd arrs)
  else (fst arrs, setitem_false (snd arrs) c e).

(** The windows of one channel, in caller order; the first failure ends the
    row. *)
Fixpoint row_of (r : BaseRawReader) (eegfname : string) (bs : list byte)
    (offs : list Z) : result (list (bool * list float)) * list event :=
  match offs with
  | [] => (Ok [], [])
  | off :: offs' =>
      match slice_of r eegfname bs off with
      | (Raise x, evs) => (Raise x, evs)
      | (Ok sl, evs) =>
          match row_of r eegfname bs offs' with
          | (Ok sls, evs') => (Ok (sl :: sls), evs ++ evs')
          | (Raise x, evs') => (Raise x, evs ++ evs')
          end
      end
  end.

(** The writes of the loop over the start offsets of one channel. *)
Fixpoint apply_row (c e : nat) (sls : list (bool * list float)) (arrs : arrays) : arrays :=
  match sls with
  | [] => arrs
  | sl :: sls' => apply_row c (S e) sls' (apply_slice c e sl arrs)
  end.

(** The rows of all channels, in caller order, with the files opened and
    closed on the way. *)
Fixpoint rows_of (fs : FileSystem) (r : BaseRawReader) (chans : list string)
    : result (list (list (bool * list float))) * list event :=
  match chans with
  | [] => (Ok [], [])
  | ch :: chans' =>
      let eegfname := channel_file r ch in
      match files fs !! eegfname with
      | None => (Raise (OSError eegfname), [])
      | Some bs =>
          match row_of r eegfname bs (start_offsets r) with
          | (Raise x, evs) => (Raise x, EvOpen eegfname :: evs ++ [EvClose eegfname])
          | (Ok row, evs) =>
              match rows_of fs r chans' with
              | (Ok rows, evs') =>
                  (Ok (row :: rows), (EvOpen eegfname :: evs ++ [EvClose eegfname]) ++ evs')
              | (Raise x, evs') =>
                  (Raise x, (EvOpen eegfname :: evs ++ [EvClose eegfname]) ++ evs')
              end
          end
      end
  end.

(** The writes of the loop over the channels. *)
Fixpoint apply_rows (c : nat) (rows : list (list (bool * list float))) (arrs : arrays)
    : arrays :=
  match rows with
  | [] => arrs
  | row :: rows' => apply_rows (S c) rows' (apply_row c 0 row arrs)
  end.

(** The reader after lines 152-153, with the size query it made. *)
Definition resolved (fs : FileSystem) (r : BaseRawReader)
    : result BaseRawReader * list event :=
  if read_size r <? 0 then
    match channels r with
    | [] => (Raise IndexError, [])
    | ch :: _ =>
        let eegfname := channel_file r ch in
        match files fs !! eegfname with
        | None => (Raise (OSError eegfname), [EvGetsize eegfname])
        | Some bs =>
            if data_size (file_format r) =? 0
            then (Raise ZeroDivisionError, [EvGetsize eegfname])
            else (Ok (set_read_size
                        (Z.quot (Z.of_nat (length bs)) (data_size (file_format r))) r),
                  [EvGetsize eegfname])
        end
    end
  else (Ok r, []).

(** Tensor and mask from the rows of windows. *)
Definition arrays_of_rows (r : BaseRawReader) (rows : list (list (bool * list float)))
    : arrays :=
  ({| shape3 := (length (channels r), length (start_offsets r), Z.to_nat (read_size r));
      cells := map (map snd) rows |},
   map (map fst) rows).

(** Result, reader afterwards and events of a binary read. *)
Definition binary_result (fs : FileSystem) (r : BaseRawReader)
    : result arrays * BaseRawReader * list event :=
  match resolved fs r with
  | (Raise x, evs) => (Raise x, r, evs)
  | (Ok r', evs) =>
      match rows_of fs r' (channels r') with
      | (Raise x, evs') => (Raise x, r', evs ++ evs')
      | (Ok rows, evs') => (Ok (arrays_of_rows r' rows), r', evs ++ evs')
      end
  end.

(** [astype(int)] on the channel labels, as a function. *)
Fixpoint parse_channels (chans : list string) : option (list Z) :=
  match chans with
  | [] => Some []
  | ch :: chans' =>
      match parse_int ch, parse_channels chans' with
      | Some n, Some ns => if in_int64 n then Some (n :: ns) else None
      | _, _ => None
      end
  end.

(** The exception of the first label that cannot be converted. *)
Fixpoint astype_error (chans : list string) : exn :=
  match chans with
  | [] => ValueError
  | ch :: chans' =>
      match parse_int ch with
      | None => ValueError
      | Some n => if in_int64 n then astype_error chans' else OverflowError
      end
  end.

(** Failure and events of a tabular read. *)
Definition hdf5_result (fs : FileSystem) (r : BaseRawReader) : result arrays * list event :=
  match tables fs !! dataroot r with
  | None => (Raise (OSError (dataroot r)), [])
  | Some eegfile =>
      match parse_channels (channels r) with
      | None => (Raise (astype_error (channels r)), [EvOpenTable (dataroot r)])
      | Some wanted =>
          if read_size r <? 0
          then (Raise NoSuchNodeError, [EvOpenTable (dataroot r)])
          else (Raise TypeError, [EvOpenTable (dataroot r)])
      end
  end.

(** The backend [read] selects for a reader. *)
Definition backend (fs : FileSystem) (r : BaseRawReader) : M arrays :=
  if negb (endswith (dataroot r) "h5") then read_binary fs else read_hdf5 fs.

(** * Observations on results and logs *)

(** [m[c][e]] and [t[c][e][:]], when the indices are in range. *)
Definition mask_at (m : list (list bool)) (c e : nat) : option bool :=
  m !! c ≫= (.!! e).

Definition slice_at (t : ndarray3) (c e : nat) : option (list float) :=
  cells t !! c ≫= (.!! e).

(** The slice holds no not-a-number. *)
Definition no_sentinel (xs : list float) : Prop := Forall (fun x => is_nan x = false) xs.

(** The events of [os.path.getsize]. *)
Definition is_getsize (ev : event) : bool :=
  match ev with EvGetsize _ => true | _ => false end.

(** How many times the log records a file-size query. *)
Definition size_queries (l : list event) : nat := length (List.filter is_getsize l).

(** Whether the window of a start offset holds [read_size] samples. *)
Definition full_window (r : BaseRawReader) (bs : list byte) (start_offset : Z) : bool :=
  read_size r <=? Z.of_nat (length (decode_window r (window r bs start_offset))).

(** The same request without its negative start offsets. *)
Definition drop_negative (r : BaseRawReader) : BaseRawReader :=
  {| dataroot := dataroot r; channels := channels r;
     start_offsets := List.filter (fun o => 0 <=? o) (start_offsets r);
     read_size := read_size r; file_format := file_format r;
     params_dict := params_dict r |}.

(** A wanted channel without an entry in the port index makes the tabular
    backend fail. *)
Definition absent_port_is_fatal (fs : FileSystem) (r : BaseRawReader) : Prop :=
  forall eegfile wanted w,
    tables fs !! dataroot r = Some eegfile ->
    parse_channels (channels r) = Some wanted ->
    w ∈ wanted -> w ∉ ports eegfile ->
    is_ok (fst (run (read_hdf5 fs) r)) = false.

(** The names of the format table. *)
Definition valid_format_names : list string :=
  ["single"; "float32"; "short"; "int16"; "int32"; "double"; "float64"].

(** * Test data *)

(** The little-endian int16 samples 1, 2, ..., 8. *)
Definition bytes_1_to_8 : list byte :=
  [x01; x00; x02; x00; x03; x00; x04; x00; x05; x00; x06; x00; x07; x00; x08; x00].

(** A dataset with the one channel file root.001. *)
Definition fs_root001 : FileSystem :=
  {| files := {[ "root.001" := bytes_1_to_8 ]}; tables := ∅ |}.

(** A parameter mapping without a format key. *)
Definition params_gain2 : gmap string pyval :=
  {[ "gain" := PFloat (float_of_Z 2); "samplerate" := PFloat (float_of_Z 500) ]}.

(** The same parameters with the format named. *)
Definition params_int16_gain2 : gmap string pyval :=
  <[ "format" := PStr "int16" ]> params_gain2.

(** A reader of channel 001 of that dataset. *)
Definition reader_root001 (offs : list Z) (rs : Z) : BaseRawReader :=
  {| dataroot := "root"; channels := ["001"]; start_offsets := offs;
     read_size := rs; file_format := int16_format; params_dict := params_gain2 |}.

(** A reader asked for no channel at all. *)
Definition reader_no_channels (offs : list Z) (rs : Z) : BaseRawReader :=
  {| dataroot := "root"; channels := []; start_offsets := offs;
     read_size := rs; file_format := int16_format; params_dict := params_gain2 |}.

(** One float32 sample whose bits are a not-a-number (0x7fc00000). *)
Definition fs_float_nan : FileSystem :=
  {| files := {[ "root.001" := [x00; x00; xc0; x7f] ]}; tables := ∅ |}.

(** A reader of one float32 sample. *)
Definition reader_float32 : BaseRawReader :=
  {| dataroot := "root"; channels := ["001"]; start_offsets := [0];
     read_size := 1; file_format := {| data_size := 4; format_string := "f" |};
     params_dict := params_gain2 |}.



(** A container with two ports and eight samples per port. *)
Definition table_2x8 : Table :=
  {| ts_dim0 := 2; ts_dim1 := 8;
     eeg_timeseries := fun p i => float_of_Z (Z.of_nat (10 * p + i));
     ports := [1; 2]; by_row := None |}.

(** A file system holding that container. *)
Definition fs_h5 : FileSystem :=
  {| files := ∅; tables := {[ "data.h5" := table_2x8 ]} |}.

(** A reader of that container. *)
Definition reader_h5 (chans : list string) (offs : list Z) (rs : Z) : BaseRawReader :=
  {| dataroot := "data.h5"; channels := chans; start_offsets := offs;
     read_size := rs; file_format := int16_format; params_dict := params_gain2 |}.

(** * Statements that the code does not satisfy *)

(** The invariant as the specification words it: for every cell of every
    successful binary read, the mask is true exactly when the slice holds no
    sentinel. *)
Definition slice_invariant (fs : FileSystem) (r : BaseRawReader) : Prop :=
  forall t m s' c e,
    run (read_binary fs) r = (Ok (t, m), s') ->
    (c < length (channels r))%nat -> (e < length (start_offsets r))%nat ->
    exists b xs, mask_at m c e = Some b /\ slice_at t c e = Some xs /\
                 (b = true <-> no_sentinel xs).

(** The claim as the specification words it: an empty request is rejected
    and no file is opened for it. *)
Definition empty_request_rejected (fs : FileSystem) (r : BaseRawReader) : Prop :=
  channels r = [] \/ start_offsets r = [] ->
  is_ok (fst (run (read_binary fs) r)) = false /\
  forall f, EvOpen f ∉ log (snd (run (read_binary fs) r)).

(** * Further observations *)

(** The number of whole samples a channel file holds. *)
Definition file_samples (r : BaseRawReader) (bs : list byte) : Z :=
  Z.of_nat (length bs) / data_size (file_format r).

(** The byte position of a start offset fits an int64, so the seek goes
    where the offset says. *)
Definition fits_int64 (r : BaseRawReader) (start_offset : Z) : Prop :=
  data_size (file_format r) * start_offset < 9223372036854775808.

(** The file is a whole number of samples long. *)
Definition whole_file (r : BaseRawReader) (bs : list byte) : Prop :=
  Z.of_nat (length bs) mod data_size (file_format r) = 0.

(** A dataset whose second channel file holds four samples only. *)
Definition fs_two_channels : FileSystem :=
  {| files := {[ "root.001" := bytes_1_to_8; "root.002" := take 8 bytes_1_to_8 ]};
     tables := ∅ |}.

(** A reader of both channels of that dataset. *)
Definition reader_two_channels (offs : list Z) (rs : Z) : BaseRawReader :=
  {| dataroot := "root"; channels := ["001"; "002"]; start_offsets := offs;
     read_size := rs; file_format := int16_format; params_dict := params_gain2 |}.

(** The diagnostics a log holds, and the invalid entries of a mask. *)
Definition is_print (ev : event) : bool :=
  match ev with EvPrint _ => true | _ => false end.

Definition diagnostics (l : list event) : nat := length (List.filter is_print l).

Definition invalid_slices (m : list (list bool)) : nat :=
  length (List.filter negb (concat m)).


(** The events of the tabular backend. *)
Definition is_table_event (ev : event) : bool :=
  match ev with EvOpenTable _ | EvCloseTable _ => true | _ => false end.

(** [struct.pack('<h', z)]: the two bytes of a 16-bit two's complement
    value, low byte first. *)
Definition byte_of_Z (z : Z) : byte :=
  default x00 (Byte.of_N (Z.to_N (z mod 256))).

Definition pack_int16 (z : Z) : list byte := [byte_of_Z z; byte_of_Z (z / 256)].

(** A reader whose parameter mapping is empty. *)
Definition reader_no_params : BaseRawReader :=
  {| dataroot := "root"; channels := ["001"]; start_offsets := [0];
     read_size := 4; file_format := int16_format; params_dict := ∅ |}.

(** The same request with other start offsets. *)
Definition set_start_offsets (offs : list Z) (r : BaseRawReader) : BaseRawReader :=
  {| dataroot := dataroot r; channels := channels r; start_offsets := offs;
     read_size := read_size r; file_format := file_format r;
     params_dict := params_dict r |}.

(** A channel file holding the one little-endian int32 sample 5. *)
Definition fs_one_int32 : FileSystem :=
  {| files := {[ "root.001" := [x05; x00; x00; x00] ]}; tables := ∅ |}.

(** A reader of int32 samples of channel 001. *)
Definition reader_int32 (offs : list Z) (rs : Z) : BaseRawReader :=
  {| dataroot := "root"; channels := ["001"]; start_offsets := offs;
     read_size := rs; file_format := {| data_size := 4; format_string := "i" |};
     params_dict := params_gain2 |}.

(** The files a log records as opened, in order. *)
Definition opened_files (l : list event) : list string :=
  omap (fun ev => match ev with EvOpen f => Some f | _ => None end) l.

(** * Verification *)

(** ** The monad's equations *)

Lemma add_log_nil s : add_log [] s = s.
Proof. destruct s; unfold add_log; simpl. by rewrite app_nil_r. Qed.

Lemma add_log_app e1 e2 s : add_log e2 (add_log e1 s) = add_log (e1 ++ e2) s.
Proof. unfold add_log; simpl. by rewrite app_assoc. Qed.

Lemma self_add_log evs s : self (add_log evs s) = self s.
Proof. reflexivity. Qed.

Lemma log_add_log evs s : log (add_log evs s) = log s ++ evs.
Proof. reflexivity. Qed.

Lemma emit_eq e s : emit e s = (Ok tt, add_log [e] s).
Proof. reflexivity. Qed.

Lemma bind_ret_l {A B} (a : A) (k : A -> M B) s : bind (ret a) k s = k a s.
Proof. reflexivity. Qed.

Lemma bind_raise {A B} (e : exn) (k : A -> M B) s : bind (raise e) k s = (Raise e, s).
Proof. reflexivity. Qed.

Lemma bind_assoc {A B C} (m : M A) (k : A -> M B) (h : B -> M C) s :
  bind (bind m k) h s = bind m (fun a => bind (k a) h) s.
Proof. unfold bind. destruct (m s) as [[a|e] s']; reflexivity. Qed.

(** ** The registered formats *)

Lemma registered_inv f :
  registered f ->
  f = {| data_size := 2; format_string := "h" |} \/
  f = {| data_size := 4; format_string := "i" |} \/
  f = {| data_size := 4; format_string := "f" |} \/
  f = {| data_size := 8; format_string := "d" |}.
Proof.
  intros [name H]. unfold file_format_dict in H. simpl in H.
  repeat match type of H with
         | (if ?b then _ else _) = _ => destruct b; [inversion H; subst; tauto|]
         end.
  discriminate.
Qed.

Lemma registered_size f :
  registered f ->
  0 < data_size f /\
  struct_item_size (format_string f) = Some (Z.to_nat (data_size f)).
Proof.
  intros H. destruct (registered_inv f H) as [-> | [-> | [-> | ->]]]; simpl; split;
    (lia || reflexivity).
Qed.

Lemma int16_format_registered : registered int16_format.
Proof. exists "int16". reflexivity. Qed.

(** Every reader that [__init__] builds carries a registered format. *)
Lemma new_reader_registered root chans offs rs params r evs :
  new_reader root chans offs rs params = (Ok r, evs) -> registered (file_format r).
Proof.
  unfold new_reader, init_body, bind, modify_self, try_except_KeyError, get_self,
    getitem.
  cbn [self log params_dict set_params_dict set_file_format init_attrs].
  destruct (params !! "format") as [v|]; unfold raise, ret.
  2:{ intros [= <- _]. apply int16_format_registered. }
  unfold format_dict_getitem. destruct v as [name|x]; unfold raise; [|discriminate].
  destruct (dict_get file_format_dict name) as [f|] eqn:E; unfold raise, ret;
    [|discriminate].
  intros [= <- _]. by exists name.
Qed.

(** ** The position of a seek *)

Lemma wrap64_id z :
  -9223372036854775808 <= z < 9223372036854775808 -> wrap64 z = z.
Proof. intros H. unfold wrap64. rewrite Z.mod_small by lia. lia. Qed.

(** A byte position that fits is the position the seek goes to. *)
Lemma seek_position_fits r off :
  0 < data_size (file_format r) -> 0 <= off -> fits_int64 r off ->
  seek_position r off = data_size (file_format r) * off.
Proof.
  unfold fits_int64, seek_position. intros Hds Hoff Hfit. apply wrap64_id. nia.
Qed.


(** ** The outcome of one (channel, offset) window, as a function *)

Lemma length_chunks count size data : length (chunks count size data) = count.
Proof. revert data; induction count; intros; simpl; auto. Qed.

Lemma length_decode_window r data :
  length (decode_window r data) =
  Z.to_nat (Z.quot (Z.of_nat (length data)) (data_size (file_format r))).
Proof. unfold decode_window. by rewrite length_map, length_chunks. Qed.

Lemma length_window_le r bs off :
  0 <= data_size (file_format r) * read_size r ->
  Z.of_nat (length (window r bs off)) <= data_size (file_format r) * read_size r.
Proof.
  intros H. unfold window. rewrite length_take. lia.
Qed.

(** A valid slice holds exactly [read_size] samples. *)
Lemma slice_of_length r fname bs off b xs evs :
  registered (file_format r) -> 0 <= read_size r ->
  slice_of r fname bs off = (Ok (b, xs), evs) ->
  length xs = Z.to_nat (read_size r).
Proof.
  intros Hreg Hrs. destruct (registered_size _ Hreg) as [Hds _].
  unfold slice_of. destruct (off <? 0).
  { intros [= <- <- <-]. apply length_replicate. }
  destruct (seek_position r off <? 0); [discriminate|].
  destruct (aligned r (window r bs off)) eqn:Hal; [|discriminate].
  destruct (_ <? read_size r) eqn:Hlt.
  { intros [= <- <- <-]. apply length_replicate. }
  intros [= <- <- <-].
  apply Z.ltb_ge in Hlt. unfold aligned in Hal. apply Z.eqb_eq in Hal.
  rewrite length_decode_window in *.
  pose proof (length_window_le r bs off ltac:(nia)) as Hle.
  set (q := Z.quot _ _) in *.
  assert (0 <= q) by (apply Z.quot_pos; lia).
  nia.
Qed.

(** ** The loop body against the window function *)

Lemma shape_apply_slice c e sl arrs :
  shape3 (fst (apply_slice c e sl arrs)) = shape3 (fst arrs).
Proof. unfold apply_slice. destruct (fst sl); reflexivity. Qed.

Lemma read_offset_spec fname efile c e off ed mk s d0 d1 :
  registered (file_format (self s)) -> 0 <= read_size (self s) ->
  shape3 ed = (d0, d1, Z.to_nat (read_size (self s))) ->
  (c < d0)%nat -> (e < d1)%nat ->
  exists efile',
    f_bytes efile' = f_bytes efile /\
    read_offset fname efile c e off (ed, mk) s =
    match slice_of (self s) fname (f_bytes efile) off with
    | (Ok sl, evs) => (Ok (efile', apply_slice c e sl (ed, mk)), add_log evs s)
    | (Raise x, evs) => (Raise x, add_log evs s)
    end.
Proof.
  intros Hreg Hrs Hshape Hc He.
  destruct (registered_size _ Hreg) as [Hds Hsize].
  unfold read_offset, slice_of.
  destruct (off <? 0) eqn:Hoff.
  { exists efile. split; [reflexivity|]. reflexivity. }
  apply Z.ltb_ge in Hoff.
  unfold bind at 1. unfold get_self at 1.
  unfold efile_seek.
  destruct (seek_position (self s) off <? 0) eqn:Hpos.
  { exists efile. split; [reflexivity|]. rewrite bind_raise. by rewrite add_log_nil. }
  rewrite bind_ret_l.
  unfold efile_read. cbn [f_bytes f_pos].
  assert ((data_size (file_format (self s)) * read_size (self s) <? 0) = false) as ->
    by (apply Z.ltb_ge; nia).
  fold (window (self s) (f_bytes efile) off).
  set (data := window (self s) (f_bytes efile) off).
  eexists. split; [|].
  2:{ unfold int_div.
      assert ((data_size (file_format (self s)) =? 0) = false) as -> by (apply Z.eqb_neq; lia).
      rewrite bind_ret_l. unfold struct_unpack. rewrite Hsize.
      rewrite Z2Nat.id by lia.
      fold (aligned (self s) data).
      destruct (aligned (self s) data) eqn:Hal.
      2:{ rewrite bind_raise. by rewrite add_log_nil. }
      rewrite bind_ret_l. fold (decode_window (self s) data).
      destruct (_ <? read_size (self s)) eqn:Hlt.
      { reflexivity. }
      assert (length (decode_window (self s) data) = Z.to_nat (read_size (self s))) as Hlen.
      { apply (slice_of_length (self s) fname (f_bytes efile) off true _ []); auto.
        unfold slice_of. apply Z.ltb_ge in Hoff. rewrite Hoff, Hpos.
        fold data. rewrite Hal, Hlt. reflexivity. }
      unfold setitem_slice. rewrite Hshape.
      assert ((c <? d0)%nat = true) as -> by (apply Nat.ltb_lt; lia).
      assert ((e <? d1)%nat = true) as -> by (apply Nat.ltb_lt; lia).
      cbn [andb]. rewrite Hlen, Nat.eqb_refl.
      rewrite bind_ret_l. unfold ret, apply_slice. cbn [fst snd].
      rewrite add_log_nil. rewrite Hshape. reflexivity. }
  reflexivity.
Qed.

(** ** The loops against their functional counterparts *)

Lemma shape_apply_row c sls : forall e arrs,
  shape3 (fst (apply_row c e sls arrs)) = shape3 (fst arrs).
Proof.
  induction sls as [|sl sls IH]; intros; simpl; [reflexivity|].
  by rewrite IH, shape_apply_slice.
Qed.

Lemma row_of_length r fname bs offs : forall sls evs,
  row_of r fname bs offs = (Ok sls, evs) -> length sls = length offs.
Proof.
  induction offs as [|off offs IH]; simpl; intros sls evs.
  { by intros [= <- <-]. }
  destruct (slice_of r fname bs off) as [[sl|x] ev1]; [|discriminate].
  destruct (row_of r fname bs offs) as [[sls'|x] ev2]; [|discriminate].
  intros [= <- <-]. simpl. f_equal. eauto.
Qed.

Lemma offsets_loop_spec fname c d0 d1 offs : forall efile e ed mk s,
  registered (file_format (self s)) -> 0 <= read_size (self s) ->
  shape3 ed = (d0, d1, Z.to_nat (read_size (self s))) ->
  (c < d0)%nat -> (e + length offs <= d1)%nat ->
  offsets_loop fname efile c e offs (ed, mk) s =
  match row_of (self s) fname (f_bytes efile) offs with
  | (Ok sls, evs) => (Ok (apply_row c e sls (ed, mk)), add_log evs s)
  | (Raise x, evs) => (Raise x, add_log evs s)
  end.
Proof.
  induction offs as [|off offs IH]; intros efile e ed mk s Hreg Hrs Hshape Hc He.
  { simpl. by rewrite add_log_nil. }
  simpl in He. cbn [offsets_loop row_of].
  destruct (read_offset_spec fname efile c e off ed mk s d0 d1) as (efile' & Hb & Hstep);
    auto; [lia|].
  unfold bind at 1. rewrite Hstep.
  destruct (slice_of (self s) fname (f_bytes efile) off) as [[sl|x] ev1]; [|reflexivity].
  cbn [fst snd].
  destruct (apply_slice c e sl (ed, mk)) as [ed' mk'] eqn:Happ.
  rewrite IH; cbn [self add_log]; auto.
  - rewrite Hb.
    destruct (row_of (self s) fname (f_bytes efile) offs) as [[sls|x] ev2];
      rewrite add_log_app; cbn [apply_row]; by rewrite ?Happ.
  - pose proof (shape_apply_slice c e sl (ed, mk)) as Hs. rewrite Happ in Hs.
    cbn [fst] in Hs. by rewrite Hs.
  - lia.
Qed.

Lemma with_open_eq {A} fs fname (body : file_obj -> M A) s :
  with_open fs fname body s =
  match files fs !! fname with
  | None => (Raise (OSError fname), s)
  | Some bs =>
      (fst (body {| f_bytes := bs; f_pos := 0 |} (add_log [EvOpen fname] s)),
       add_log [EvClose fname]
         (snd (body {| f_bytes := bs; f_pos := 0 |} (add_log [EvOpen fname] s))))
  end.
Proof.
  unfold with_open. destruct (files fs !! fname); [|reflexivity].
  unfold bind, emit. fold (add_log [EvOpen fname] s).
  destruct (body _ _) as [r s']. reflexivity.
Qed.

Lemma channels_loop_spec fs d0 d1 chans : forall c ed mk s,
  registered (file_format (self s)) -> 0 <= read_size (self s) ->
  shape3 ed = (d0, d1, Z.to_nat (read_size (self s))) ->
  length (start_offsets (self s)) = d1 ->
  (c + length chans <= d0)%nat ->
  channels_loop fs c chans (ed, mk) s =
  match rows_of fs (self s) chans with
  | (Ok rows, evs) => (Ok (apply_rows c rows (ed, mk)), add_log evs s)
  | (Raise x, evs) => (Raise x, add_log evs s)
  end.
Proof.
  induction chans as [|ch chans IH]; intros c ed mk s Hreg Hrs Hshape Hoffs Hc.
  { simpl. by rewrite add_log_nil. }
  simpl in Hc. cbn [channels_loop rows_of].
  unfold bind at 1. unfold get_self at 1.
  unfold bind at 1. rewrite with_open_eq.
  destruct (files fs !! channel_file (self s) ch) as [bs|]; [|by rewrite add_log_nil].
  rewrite (offsets_loop_spec _ c d0 d1); cbn [self add_log f_bytes]; auto; try lia.
  destruct (row_of (self s) (channel_file (self s) ch) bs (start_offsets (self s)))
    as [[row|x] ev1].
  2:{ cbn [fst snd]. rewrite !add_log_app. reflexivity. }
  cbn [fst snd].
  destruct (apply_row c 0 row (ed, mk)) as [ed' mk'] eqn:Happ.
  rewrite IH; cbn [self add_log]; auto.
  - destruct (rows_of fs (self s) chans) as [[rows|x] ev2];
      rewrite !add_log_app; cbn [apply_rows]; rewrite ?Happ;
      simpl; rewrite <- ?app_assoc; reflexivity.
  - pose proof (shape_apply_row c row 0 (ed, mk)) as Hs. rewrite Happ in Hs.
    cbn [fst] in Hs. by rewrite Hs.
  - lia.
Qed.

(** ** What the index writes leave in freshly allocated arrays *)

Lemma alter_middle {A} (f : A -> A) (l1 : list A) x l2 :
  alter f (length l1) (l1 ++ x :: l2) = l1 ++ f x :: l2.
Proof. rewrite alter_app_r_alt by lia. by rewrite Nat.sub_diag. Qed.

Lemma insert_middle {A} (l1 : list A) x y l2 :
  <[length l1 := y]> (l1 ++ x :: l2) = l1 ++ y :: l2.
Proof. rewrite insert_app_r_alt by lia. by rewrite Nat.sub_diag. Qed.

Lemma slice_of_wf r fname bs off sl evs :
  slice_of r fname bs off = (Ok sl, evs) -> slice_wf (Z.to_nat (read_size r)) sl.
Proof.
  unfold slice_of, slice_wf.
  destruct (off <? 0); [by intros [= <- <-]|].
  destruct (seek_position r off <? 0); [discriminate|].
  destruct (aligned _ _); [|discriminate].
  destruct (_ <? read_size r); intros [= <- <-]; simpl; [done|discriminate].
Qed.

Lemma row_of_wf r fname bs offs : forall sls evs,
  row_of r fname bs offs = (Ok sls, evs) ->
  Forall (slice_wf (Z.to_nat (read_size r))) sls.
Proof.
  induction offs as [|off offs IH]; simpl; intros sls evs.
  { intros [= <- <-]. constructor. }
  destruct (slice_of r fname bs off) as [[sl|x] ev1] eqn:Hsl; [|discriminate].
  destruct (row_of r fname bs offs) as [[sls'|x] ev2]; [|discriminate].
  intros [= <- <-]. constructor; eauto using slice_of_wf.
Qed.

Lemma apply_row_fresh n sh sls : forall pre_c done_c post_c pre_m done_m post_m,
  Forall (slice_wf n) sls ->
  length pre_m = length pre_c -> length done_m = length done_c ->
  apply_row (length pre_c) (length done_c) sls
    ({| shape3 := sh;
        cells := pre_c ++ (done_c ++ replicate (length sls) (nan_slice n)) :: post_c |},
     pre_m ++ (done_m ++ replicate (length sls) true) :: post_m)
  = ({| shape3 := sh; cells := pre_c ++ (done_c ++ map snd sls) :: post_c |},
     pre_m ++ (done_m ++ map fst sls) :: post_m).
Proof.
  induction sls as [|[b xs] sls IH];
    intros pre_c done_c post_c pre_m done_m post_m Hwf Hpre Hdone.
  { reflexivity. }
  inversion Hwf as [|? ? Hsl Hwf']; subst.
  cbn [apply_row length replicate map fst snd].
  assert (apply_slice (length pre_c) (length done_c) (b, xs)
    ({| shape3 := sh;
        cells := pre_c ++ (done_c ++ nan_slice n :: replicate (length sls) (nan_slice n))
                   :: post_c |},
     pre_m ++ (done_m ++ true :: replicate (length sls) true) :: post_m)
    = ({| shape3 := sh;
          cells := pre_c ++ ((done_c ++ [xs]) ++ replicate (length sls) (nan_slice n))
                     :: post_c |},
       pre_m ++ ((done_m ++ [b]) ++ replicate (length sls) true) :: post_m)) as ->.
  { unfold apply_slice, setitem_false. cbn [fst snd shape3 cells].
    destruct b.
    - rewrite alter_middle, insert_middle. by rewrite <- !app_assoc.
    - rewrite <- Hpre, <- Hdone, alter_middle, insert_middle.
      unfold slice_wf in Hsl. cbn in Hsl. rewrite Hsl by done.
      by rewrite <- !app_assoc. }
  replace (S (length done_c)) with (length (done_c ++ [xs]))
    by (rewrite length_app; simpl; lia).
  rewrite IH; auto.
  - by rewrite <- !app_assoc.
  - rewrite !length_app. simpl. lia.
Qed.

Lemma apply_rows_fresh n d1 sh rows : forall done_c done_m,
  Forall (fun row => length row = d1 /\ Forall (slice_wf n) row) rows ->
  length done_m = length done_c ->
  apply_rows (length done_c) rows
    ({| shape3 := sh;
        cells := done_c ++ replicate (length rows) (replicate d1 (nan_slice n)) |},
     done_m ++ replicate (length rows) (replicate d1 true))
  = ({| shape3 := sh; cells := done_c ++ map (map snd) rows |},
     done_m ++ map (map fst) rows).
Proof.
  induction rows as [|row rows IH]; intros done_c done_m Hrows Hdone.
  { reflexivity. }
  inversion Hrows as [|? ? [Hlen Hwf] Hrows']; subst.
  cbn [apply_rows length replicate map].
  pose proof (apply_row_fresh n sh row done_c [] (replicate (length rows)
                (replicate (length row) (nan_slice n))) done_m []
                (replicate (length rows) (replicate (length row) true)) Hwf Hdone eq_refl)
    as Hrow.
  cbn [app length] in Hrow. rewrite Hrow.
  specialize (IH (done_c ++ [map snd row]) (done_m ++ [map fst row]) Hrows').
  rewrite <- !app_assoc, !length_app in IH. cbn [app length] in IH.
  rewrite !Nat.add_1_r in IH. apply IH. lia.
Qed.

Lemma rows_of_shape fs r chans : forall rows evs,
  rows_of fs r chans = (Ok rows, evs) ->
  length rows = length chans /\
  Forall (fun row => length row = length (start_offsets r) /\
                     Forall (slice_wf (Z.to_nat (read_size r))) row) rows.
Proof.
  induction chans as [|ch chans IH]; simpl; intros rows evs.
  { intros [= <- <-]. split; [done|constructor]. }
  destruct (files fs !! channel_file r ch) as [bs|]; [|discriminate].
  destruct (row_of r _ bs _) as [[row|x] ev1] eqn:Hrow; [|discriminate].
  destruct (rows_of fs r chans) as [[rows'|x] ev2]; [|discriminate].
  intros [= <- <-]. destruct (IH _ _ eq_refl) as [Hl Hf].
  split; [simpl; lia|].
  constructor; [|done]. split; eauto using row_of_length, row_of_wf.
Qed.

(** ** read_binary as a function of the reader and the file system *)

Lemma resolve_read_size_eq fs s :
  resolve_read_size fs s =
  match resolved fs (self s) with
  | (Ok r', evs) => (Ok tt, {| self := r'; log := log s ++ evs |})
  | (Raise x, evs) => (Raise x, add_log evs s)
  end.
Proof.
  unfold resolve_read_size, resolved, bind, get_self, get_file_size.
  destruct (read_size (self s) <? 0).
  2:{ unfold ret. destruct s; simpl. by rewrite app_nil_r. }
  unfold bind, get_self.
  destruct (channels (self s)) as [|ch chans].
  { unfold raise. by rewrite add_log_nil. }
  rewrite emit_eq. cbn [self add_log].
  destruct (files fs !! channel_file (self s) ch) as [bs|]; [|reflexivity].
  unfold ret, int_div.
  destruct (data_size (file_format (self s)) =? 0); reflexivity.
Qed.

Lemma resolved_inv fs r r' evs :
  resolved fs r = (Ok r', evs) ->
  dataroot r' = dataroot r /\ channels r' = channels r /\
  start_offsets r' = start_offsets r /\ file_format r' = file_format r /\
  params_dict r' = params_dict r /\
  (0 < data_size (file_format r) -> 0 <= read_size r') /\
  (0 <= read_size r -> r' = r /\ evs = []).
Proof.
  unfold resolved. destruct (read_size r <? 0) eqn:Hrs.
  - destruct (channels r) as [|ch chans] eqn:Hch; [discriminate|].
    destruct (files fs !! channel_file r ch) as [bs|]; [|discriminate].
    destruct (data_size (file_format r) =? 0); [discriminate|].
    intros [= <- <-]. apply Z.ltb_lt in Hrs. simpl.
    repeat split; auto; try lia.
    intros Hds. apply Z.quot_pos; lia.
  - intros [= <- <-]. apply Z.ltb_ge in Hrs. repeat split; auto.
Qed.

Lemma read_binary_eq fs s :
  registered (file_format (self s)) ->
  read_binary fs s =
  let '(res, r', evs) := binary_result fs (self s) in
  (res, {| self := r'; log := log s ++ evs |}).
Proof.
  intros Hreg. unfold read_binary, binary_result.
  unfold bind at 1. rewrite resolve_read_size_eq.
  destruct (resolved fs (self s)) as [[r'|x] evs] eqn:Hres; [|reflexivity].
  destruct (resolved_inv _ _ _ _ Hres) as (_ & _ & _ & Hfmt & _ & Hrs & _).
  destruct (registered_size _ Hreg) as [Hds _]. specialize (Hrs Hds).
  unfold bind at 1. unfold get_self at 1. cbn [self].
  unfold np_empty_nan.
  assert ((read_size r' <? 0) = false) as -> by (apply Z.ltb_ge; lia).
  rewrite bind_ret_l.
  rewrite (channels_loop_spec fs (length (channels r')) (length (start_offsets r')));
    cbn [self shape3]; auto; try congruence.
  destruct (rows_of fs r' (channels r')) as [[rows|x] evs'] eqn:Hrows.
  2:{ unfold add_log; simpl. by rewrite app_assoc. }
  destruct (rows_of_shape _ _ _ _ _ Hrows) as [Hlen Hwf].
  unfold np_ones. rewrite <- Hlen.
  pose proof (apply_rows_fresh (Z.to_nat (read_size r')) (length (start_offsets r'))
                (length rows, length (start_offsets r'), Z.to_nat (read_size r'))
                rows [] [] Hwf eq_refl) as Hfill.
  cbn [app length] in Hfill. unfold nan_slice in *. rewrite Hfill.
  unfold arrays_of_rows, add_log. simpl. rewrite Hlen. by rewrite app_assoc.
Qed.

(** ** Reading single cells of the result *)

Lemma row_of_lookup r fname bs offs : forall sls evs e off,
  row_of r fname bs offs = (Ok sls, evs) -> offs !! e = Some off ->
  exists sl ev, slice_of r fname bs off = (Ok sl, ev) /\ sls !! e = Some sl /\
                (forall x, x ∈ ev -> x ∈ evs).
Proof.
  induction offs as [|o offs IH]; simpl; intros sls evs e off; [by intros _ [=]|].
  destruct (slice_of r fname bs o) as [[sl|x] ev1] eqn:Hsl; [|discriminate].
  destruct (row_of r fname bs offs) as [[sls'|x] ev2] eqn:Hrow; [|discriminate].
  intros [= <- <-] He. destruct e as [|e]; simpl in He.
  - injection He as ->. exists sl, ev1. repeat split; auto.
    intros x Hx. apply elem_of_app. auto.
  - destruct (IH _ _ _ _ eq_refl He) as (sl' & ev & H1 & H2 & H3).
    exists sl', ev. repeat split; auto.
    intros x Hx. apply elem_of_app. auto.
Qed.

Lemma rows_of_lookup fs r chans : forall rows evs c ch,
  rows_of fs r chans = (Ok rows, evs) -> chans !! c = Some ch ->
  exists bs row ev,
    files fs !! channel_file r ch = Some bs /\
    row_of r (channel_file r ch) bs (start_offsets r) = (Ok row, ev) /\
    rows !! c = Some row /\ (forall x, x ∈ ev -> x ∈ evs) /\
    EvOpen (channel_file r ch) ∈ evs /\ EvClose (channel_file r ch) ∈ evs.
Proof.
  induction chans as [|ch0 chans IH]; simpl; intros rows evs c ch; [by intros _ [=]|].
  destruct (files fs !! channel_file r ch0) as [bs|] eqn:Hf; [|discriminate].
  destruct (row_of r _ bs _) as [[row|x] ev1] eqn:Hrow; [|discriminate].
  destruct (rows_of fs r chans) as [[rows'|x] ev2] eqn:Hrows; [|discriminate].
  intros [= <- <-] Hc. destruct c as [|c]; simpl in Hc.
  - injection Hc as ->. exists bs, row, ev1. repeat split; auto; set_solver.
  - destruct (IH _ _ _ _ eq_refl Hc) as (bs' & row' & ev & H1 & H2 & H3 & H4 & H5 & H6).
    exists bs', row', ev. repeat split; auto; set_solver.
Qed.

Lemma lookup_map {A B} (f : A -> B) (l : list A) i : map f l !! i = f <$> l !! i.
Proof. revert i; induction l as [|x l IH]; intros [|i]; simpl; auto. Qed.

(** Every cell of a successful binary read is the outcome of its window,
    computed with the reader as the call leaves it. *)
Lemma read_binary_cells fs r t m s' :
  registered (file_format r) ->
  run (read_binary fs) r = (Ok (t, m), s') ->
  exists evs,
    resolved fs r = (Ok (self s'), evs) /\
    shape3 t = (length (channels r), length (start_offsets r),
                Z.to_nat (read_size (self s'))) /\
    forall c ch e off,
      channels r !! c = Some ch -> start_offsets r !! e = Some off ->
      exists bs sl ev,
        files fs !! channel_file r ch = Some bs /\
        slice_of (self s') (channel_file r ch) bs off = (Ok sl, ev) /\
        mask_at m c e = Some (fst sl) /\ slice_at t c e = Some (snd sl) /\
        (forall x, x ∈ ev -> x ∈ log s') /\
        EvOpen (channel_file r ch) ∈ log s' /\ EvClose (channel_file r ch) ∈ log s'.
Proof.
  intros Hreg. unfold run. rewrite read_binary_eq by done. cbn [self log].
  unfold binary_result.
  destruct (resolved fs r) as [[r'|x] evs] eqn:Hres; [|discriminate].
  destruct (resolved_inv _ _ _ _ Hres) as (Hroot & Hch & Hoffs & Hfmt & _).
  destruct (rows_of fs r' (channels r')) as [[rows|x] evs'] eqn:Hrows; [|discriminate].
  intros [= <- <- <-]. cbn [self log]. exists evs. split; [done|].
  split; [simpl; congruence|].
  intros c ch e off Hc He. rewrite <- Hch in Hc. rewrite <- Hoffs in He.
  destruct (rows_of_lookup _ _ _ _ _ _ _ Hrows Hc)
    as (bs & row & ev & Hf & Hrow & Hr & Hin & Hopen & Hclose).
  destruct (row_of_lookup _ _ _ _ _ _ _ _ Hrow He) as (sl & ev' & Hsl & Hs & Hin').
  assert (channel_file r' ch = channel_file r ch) as Hname
    by (unfold channel_file; congruence).
  rewrite Hname in *.
  exists bs, sl, ev'. repeat split; auto.
  - unfold mask_at. rewrite lookup_map, Hr. simpl. by rewrite lookup_map, Hs.
  - unfold slice_at. simpl. rewrite lookup_map, Hr. simpl. by rewrite lookup_map, Hs.
  - intros x Hx. simpl. set_solver.
  - simpl. set_solver.
  - simpl. set_solver.
Qed.

(** ** Floats that are never the sentinel

    Rounding a non-negative mantissa never yields the not-a-number, in any
    binary format. *)

Section Rounding.
  Variables prec emax : Z.

Lemma shr_1_nonneg mrs : 0 <= shr_m mrs -> 0 <= shr_m (shr_1 mrs).
Proof.
  destruct mrs as [m r s]. simpl.
  destruct m as [|p|p]; simpl; [lia| |lia].
  destruct p; simpl; lia.
Qed.

Lemma iter_pos_shr_1_nonneg p : forall mrs,
  0 <= shr_m mrs -> 0 <= shr_m (SpecFloat.iter_pos shr_1 p mrs).
Proof.
  induction p as [p IH|p IH|]; intros mrs H; simpl; auto using shr_1_nonneg.
Qed.

Lemma shr_fexp_nonneg m e l :
  0 <= m -> 0 <= shr_m (fst (shr_fexp prec emax m e l)).
Proof.
  intros H. unfold shr_fexp, shr.
  assert (0 <= shr_m (shr_record_of_loc m l)) as H0.
  { destruct l as [|[]]; simpl; lia. }
  destruct (_ - e) as [|p|p]; simpl; auto using iter_pos_shr_1_nonneg.
Qed.

Lemma binary_round_aux_not_nan sx mx ex lx :
  0 <= mx -> binary_round_aux prec emax sx mx ex lx <> S754_nan.
Proof.
  intros H. unfold binary_round_aux.
  pose proof (shr_fexp_nonneg mx ex lx H) as H1.
  destruct (shr_fexp prec emax mx ex lx) as [mrs' e'] eqn:E1. simpl in H1.
  assert (0 <= round_nearest_even (shr_m mrs') (loc_of_shr_record mrs')) as H2.
  { unfold round_nearest_even.
    destruct (loc_of_shr_record mrs') as [|[]]; try lia.
    destruct (Z.even _); lia. }
  pose proof (shr_fexp_nonneg _ e' loc_Exact H2) as H3.
  destruct (shr_fexp prec emax _ e' loc_Exact) as [mrs'' e''] eqn:E2. simpl in H3.
  destruct (shr_m mrs'') as [|p|p]; [discriminate| |lia].
  destruct (_ <=? _); discriminate.
Qed.

End Rounding.

Lemma float_of_Z_not_nan z : is_nan (float_of_Z z) = false.
Proof.
  assert (float_of_Z z <> S754_nan) as H.
  { unfold float_of_Z, binary_normalize, binary_round.
    destruct z as [|p|p]; [discriminate| |];
      destruct (shl_align _ _ _) as [mz ez]; apply binary_round_aux_not_nan; lia. }
  destruct (float_of_Z z); simpl; congruence.
Qed.

Lemma decode_item_integer f bs :
  integer_format f -> is_nan (decode_item (format_string f) bs) = false.
Proof.
  unfold decode_item. intros [-> | ->]; simpl; apply float_of_Z_not_nan.
Qed.

(** * The claims *)

(** ** C1: the slice-granularity invariant of the binary backend *)

Lemma nan_slice_has_sentinel n : (0 < n)%nat -> ~ no_sentinel (nan_slice n).
Proof.
  intros Hn H. destruct n; [lia|]. unfold nan_slice in H. simpl in H.
  inversion H as [|? ? Hx _]. discriminate.
Qed.

Lemma decode_window_integer r data :
  integer_format (file_format r) -> no_sentinel (decode_window r data).
Proof.
  intros Hint. unfold no_sentinel, decode_window.
  apply Forall_forall. intros x Hx. apply list_elem_of_In in Hx.
  apply in_map_iff in Hx as (bs & <- & _).
  by apply decode_item_integer.
Qed.

(** C1 (as amended): in a successful binary read every slice has
    read_size entries and a slice whose mask entry is False is entirely
    sentinel; with an integer sample format (short, int16, int32) and a
    positive resolved read_size, mask[c][o] is True if and only if
    tensor[c][o][:] holds no sentinel, for every channel index c and offset
    index o. *)
Theorem binary_mask_iff_no_sentinel fs r t m s' c e :
  registered (file_format r) ->
  run (read_binary fs) r = (Ok (t, m), s') ->
  (c < length (channels r))%nat -> (e < length (start_offsets r))%nat ->
  exists b xs,
    mask_at m c e = Some b /\ slice_at t c e = Some xs /\
    length xs = Z.to_nat (read_size (self s')) /\
    (b = false -> xs = nan_slice (Z.to_nat (read_size (self s')))) /\
    (integer_format (file_format r) -> 0 < read_size (self s') ->
     (b = true <-> no_sentinel xs)).
Proof.
  intros Hreg Hrun Hc He.
  destruct (read_binary_cells _ _ _ _ _ Hreg Hrun) as (evs & Hres & _ & Hcells).
  destruct (resolved_inv _ _ _ _ Hres) as (_ & _ & _ & Hfmt & _ & Hrs & _).
  destruct (registered_size _ Hreg) as [Hds _]. specialize (Hrs Hds).
  destruct (lookup_lt_is_Some_2 _ _ Hc) as [ch Hch].
  destruct (lookup_lt_is_Some_2 _ _ He) as [off Hoff].
  destruct (Hcells c ch e off Hch Hoff) as (bs & [b xs] & ev & _ & Hsl & Hm & Ht & _).
  exists b, xs. cbn [fst snd] in *. rewrite <- Hfmt in Hreg.
  pose proof (slice_of_wf _ _ _ _ _ _ Hsl) as Hwf. unfold slice_wf in Hwf.
  cbn [fst snd] in Hwf.
  repeat split; auto.
  - eapply slice_of_length; eauto.
  - intros ->. revert Hsl. unfold slice_of.
    destruct (off <? 0); [discriminate|].
    destruct (seek_position _ off <? 0); [discriminate|].
    destruct (aligned _ _); [|discriminate].
    destruct (_ <? read_size (self s')); [discriminate|].
    intros [= <-]. apply decode_window_integer. by rewrite Hfmt.
  - intros Hno. destruct b; [done|].
    rewrite Hwf in Hno by done.
    exfalso. revert Hno. apply nan_slice_has_sentinel. lia.
Qed.

Lemma binary_mask_iff_no_sentinel_witness :
  exists t m s',
    run (read_binary fs_root001) (reader_root001 [0; 6] 4) = (Ok (t, m), s') /\
    exists b xs,
      mask_at m 0 1 = Some b /\ slice_at t 0 1 = Some xs /\
      length xs = Z.to_nat (read_size (self s')) /\
      (b = false -> xs = nan_slice (Z.to_nat (read_size (self s')))) /\
      (integer_format int16_format -> 0 < read_size (self s') ->
       (b = true <-> no_sentinel xs)).
Proof.
  eexists _, _, _. split; [vm_compute; reflexivity|].
  apply (binary_mask_iff_no_sentinel fs_root001 (reader_root001 [0; 6] 4)).
  - exact int16_format_registered.
  - vm_compute. reflexivity.
  - simpl. lia.
  - simpl. lia.
Defined.

(** C1 (as stated) fails on the code: with read_size 0 a rejected negative
    offset leaves an empty slice, which holds no sentinel although its mask
    entry is False; and a float32 file may itself hold a not-a-number, which
    is stored in a slice whose mask entry is True. *)
Lemma slice_invariant_fails :
  ~ slice_invariant fs_root001 (reader_root001 [-1] 0) /\
  ~ slice_invariant fs_float_nan reader_float32.
Proof.
  split; intros H.
  - edestruct (fun t m s' => H t m s' 0%nat 0%nat) as (b & xs & Hm & Ht & Hiff).
    + vm_compute. reflexivity.
    + simpl. lia.
    + simpl. lia.
    + vm_compute in Hm, Ht. injection Hm as <-. injection Ht as <-.
      assert (false = true) by (apply Hiff; constructor). discriminate.
  - edestruct (fun t m s' => H t m s' 0%nat 0%nat) as (b & xs & Hm & Ht & Hiff).
    + vm_compute. reflexivity.
    + simpl. lia.
    + simpl. lia.
    + vm_compute in Hm, Ht. injection Hm as <-. injection Ht as <-.
      destruct Hiff as [Hiff _]. specialize (Hiff eq_refl).
      inversion Hiff as [|? ? Hx _]. discriminate.
Qed.

(** ** C2: the two-window scenario *)

(** C2: with one channel file root.001 holding the int16 samples 1..8, gain
    2.0, start offsets [0, 4] and read_size 4, read returns the tensor
    [[[2,4,6,8],[10,12,14,16]]], every raw sample multiplied by the gain, and
    the mask [[True, True]]. *)
Theorem read_two_windows_scenario :
  exists r d m s',
    new_reader "root" ["001"] [0; 4] 4 params_int16_gain2 = (Ok r, []) /\
    run (read fs_root001) r = (Ok (d, m), s') /\
    cells (values d) = [[ map float_of_Z [2; 4; 6; 8];
                          map float_of_Z [10; 12; 14; 16] ]] /\
    cells (values d) =
      [[ map (fun z => fmul (float_of_Z z) (float_of_Z 2)) [1; 2; 3; 4];
         map (fun z => fmul (float_of_Z z) (float_of_Z 2)) [5; 6; 7; 8] ]] /\
    m = [[true; true]].
Proof.
  eexists _, _, _, _. split; [vm_compute; reflexivity|].
  split; [vm_compute; reflexivity|].
  repeat split; vm_compute; reflexivity.
Qed.

(** ** C3: resolution of an unresolved read_size *)

Lemma size_queries_app l1 l2 : size_queries (l1 ++ l2) = (size_queries l1 + size_queries l2)%nat.
Proof. unfold size_queries. by rewrite List.filter_app, length_app. Qed.

Lemma slice_of_quiet r fname bs off res evs :
  slice_of r fname bs off = (res, evs) -> size_queries evs = 0%nat.
Proof.
  unfold slice_of. destruct (off <? 0); [by intros [= <- <-]|].
  destruct (seek_position r off <? 0); [by intros [= <- <-]|].
  destruct (aligned _ _); [|by intros [= <- <-]].
  destruct (_ <? read_size r); by intros [= <- <-].
Qed.

Lemma row_of_quiet r fname bs offs : forall res evs,
  row_of r fname bs offs = (res, evs) -> size_queries evs = 0%nat.
Proof.
  induction offs as [|off offs IH]; simpl; intros res evs; [by intros [= <- <-]|].
  destruct (slice_of r fname bs off) as [[sl|x] ev1] eqn:Hsl.
  2:{ intros [= <- <-]. eauto using slice_of_quiet. }
  destruct (row_of r fname bs offs) as [[sls|x] ev2]; intros [= <- <-];
    rewrite size_queries_app; erewrite slice_of_quiet, IH; eauto.
Qed.

Lemma rows_of_quiet fs r chans : forall res evs,
  rows_of fs r chans = (res, evs) -> size_queries evs = 0%nat.
Proof.
  induction chans as [|ch chans IH]; simpl; intros res evs; [by intros [= <- <-]|].
  destruct (files fs !! channel_file r ch) as [bs|]; [|by intros [= <- <-]].
  destruct (row_of r _ bs _) as [[row|x] ev1] eqn:Hrow.
  2:{ intros [= <- <-]. change (EvOpen ?f :: ?l) with ([EvOpen f] ++ l).
      rewrite !size_queries_app, (row_of_quiet _ _ _ _ _ _ Hrow). reflexivity. }
  destruct (rows_of fs r chans) as [[rows|x] ev2]; intros [= <- <-];
    change (EvOpen ?f :: ?l) with ([EvOpen f] ++ l);
    rewrite !size_queries_app, (row_of_quiet _ _ _ _ _ _ Hrow), (IH _ _ eq_refl);
    reflexivity.
Qed.

Lemma slice_of_ext r1 r2 fname bs off :
  file_format r1 = file_format r2 -> read_size r1 = read_size r2 ->
  slice_of r1 fname bs off = slice_of r2 fname bs off.
Proof.
  intros Hf Hr. unfold slice_of, window, seek_position, aligned, decode_window.
  by rewrite Hf, Hr.
Qed.

Lemma row_of_ext r1 r2 fname bs offs :
  file_format r1 = file_format r2 -> read_size r1 = read_size r2 ->
  row_of r1 fname bs offs = row_of r2 fname bs offs.
Proof.
  intros Hf Hr. induction offs as [|off offs IH]; simpl; [done|].
  by rewrite (slice_of_ext r1 r2), IH.
Qed.

Lemma rows_of_ext fs r1 r2 chans :
  dataroot r1 = dataroot r2 -> start_offsets r1 = start_offsets r2 ->
  file_format r1 = file_format r2 -> read_size r1 = read_size r2 ->
  rows_of fs r1 chans = rows_of fs r2 chans.
Proof.
  intros Hd Ho Hf Hr. induction chans as [|ch chans IH]; simpl; [done|].
  assert (channel_file r1 ch = channel_file r2 ch) as ->
    by (unfold channel_file; congruence).
  destruct (files fs !! channel_file r2 ch) as [bs|]; [|done].
  by rewrite (row_of_ext r1 r2), Ho, IH.
Qed.

Lemma resolved_nonneg fs r : 0 <= read_size r -> resolved fs r = (Ok r, []).
Proof.
  intros H. unfold resolved.
  by assert ((read_size r <? 0) = false) as -> by (apply Z.ltb_ge; lia).
Qed.

Lemma resolved_negative fs r ch chans bs :
  registered (file_format r) -> read_size r < 0 -> channels r = ch :: chans ->
  files fs !! channel_file r ch = Some bs ->
  resolved fs r =
  (Ok (set_read_size (Z.of_nat (length bs) / data_size (file_format r)) r),
   [EvGetsize (channel_file r ch)]).
Proof.
  intros Hreg Hrs Hch Hf. destruct (registered_size _ Hreg) as [Hds _].
  unfold resolved. rewrite (proj2 (Z.ltb_lt _ _) Hrs), Hch, Hf.
  rewrite (proj2 (Z.eqb_neq _ _)) by lia.
  rewrite Z.quot_div_nonneg by lia. reflexivity.
Qed.

(** C3: when read_size is unresolved, read_binary queries the size of the
    first channel's file once, pins read_size to that byte length divided
    (integer division) by the format's byte width, and reads every channel
    and offset with that one value: the call is the call made with the
    resolved read_size, and every slice has that many entries. With the
    8-sample int16 file, read_size -1 resolves to 8 and the single offset 0
    yields the whole channel as one valid slice. *)
Theorem read_size_resolved_once :
  (forall fs r ch chans bs res s',
     registered (file_format r) -> read_size r < 0 -> channels r = ch :: chans ->
     files fs !! channel_file r ch = Some bs ->
     run (read_binary fs) r = (res, s') ->
     let n := Z.of_nat (length bs) / data_size (file_format r) in
     self s' = set_read_size n r /\
     size_queries (log s') = 1%nat /\
     res = fst (run (read_binary fs) (set_read_size n r)) /\
     forall t m, res = Ok (t, m) ->
       shape3 t = (length (channels r), length (start_offsets r), Z.to_nat n) /\
       forall c e, (c < length (channels r))%nat -> (e < length (start_offsets r))%nat ->
         exists xs, slice_at t c e = Some xs /\ length xs = Z.to_nat n) /\
  (exists t m s',
     run (read_binary fs_root001) (reader_root001 [0] (-1)) = (Ok (t, m), s') /\
     read_size (self s') = 8 /\
     cells t = [[map float_of_Z [1; 2; 3; 4; 5; 6; 7; 8]]] /\
     m = [[true]]).
Proof.
  split.
  2:{ eexists _, _, _. split; [vm_compute; reflexivity|].
      repeat split; vm_compute; reflexivity. }
  intros fs r ch chans bs res s' Hreg Hrs Hch Hf Hrun n.
  pose proof Hrun as Hrun'.
  unfold run in Hrun. rewrite read_binary_eq in Hrun by done.
  unfold binary_result in Hrun. cbn [self log] in Hrun.
  rewrite (resolved_negative fs r ch chans bs) in Hrun by done. fold n in Hrun.
  destruct (registered_size _ Hreg) as [Hds _].
  assert (0 <= n) as Hn by (apply Z.div_pos; lia).
  assert (fst (run (read_binary fs) (set_read_size n r)) = res) as Hsame.
  { unfold run. rewrite read_binary_eq by done. unfold binary_result. cbn [self].
    rewrite resolved_nonneg by done.
    destruct (rows_of fs (set_read_size n r) _) as [[rows|x] evs'];
      by injection Hrun as <- _. }
  assert (self s' = set_read_size n r) as Hself.
  { destruct (rows_of fs (set_read_size n r) _) as [[rows|x] evs'];
      by injection Hrun as _ <-. }
  split; [done|]. split.
  { destruct (rows_of fs (set_read_size n r) _) as [[rows|x] evs'] eqn:Hrows;
      injection Hrun as _ <-; cbn [log app];
      change (EvGetsize ?f :: ?l) with ([EvGetsize f] ++ l);
      rewrite size_queries_app, (rows_of_quiet _ _ _ _ _ Hrows); reflexivity. }
  split; [done|].
  intros t m ->.
  destruct (read_binary_cells _ _ _ _ _ Hreg Hrun') as (evs & Hres & Hshape & Hcells).
  rewrite Hself in *. cbn [read_size set_read_size] in *.
  split; [done|].
  intros c e Hc He.
  destruct (lookup_lt_is_Some_2 _ _ Hc) as [ch' Hch'].
  destruct (lookup_lt_is_Some_2 _ _ He) as [off Hoff].
  destruct (Hcells c ch' e off Hch' Hoff) as (bs' & [b xs] & ev & _ & Hsl & _ & Ht & _).
  exists xs. split; [done|].
  change (Z.to_nat n) with (Z.to_nat (read_size (set_read_size n r))).
  eapply slice_of_length; [| |exact Hsl]; simpl; auto.
Qed.

Lemma read_size_resolved_once_witness :
  exists res s',
    run (read_binary fs_root001) (reader_root001 [0] (-1)) = (res, s') /\
    self s' = set_read_size 8 (reader_root001 [0] (-1)) /\
    size_queries (log s') = 1%nat.
Proof.
  eexists _, _. split; [vm_compute; reflexivity|].
  destruct (proj1 read_size_resolved_once fs_root001 (reader_root001 [0] (-1))
              "001" [] bytes_1_to_8 _ _ int16_format_registered
              ltac:(simpl; lia) eq_refl eq_refl eq_refl) as (H1 & H2 & _).
  split; [exact H1 | exact H2].
Defined.

(** ** C4: negative start offsets *)

Lemma row_of_ok_cons r fname bs off offs :
  is_ok (fst (row_of r fname bs (off :: offs))) =
  is_ok (fst (slice_of r fname bs off)) && is_ok (fst (row_of r fname bs offs)).
Proof.
  simpl. destruct (slice_of r fname bs off) as [[sl|x] ev1]; [|reflexivity].
  destruct (row_of r fname bs offs) as [[sls|x] ev2]; reflexivity.
Qed.

Lemma slice_of_negative r fname bs off :
  off < 0 ->
  slice_of r fname bs off =
  (Ok (false, nan_slice (Z.to_nat (read_size r))),
   [EvPrint (negative_offset_msg off fname)]).
Proof. intros H. unfold slice_of. by rewrite (proj2 (Z.ltb_lt _ _) H). Qed.

Lemma row_of_ok_filter r fname bs offs :
  is_ok (fst (row_of r fname bs offs)) =
  is_ok (fst (row_of r fname bs (List.filter (fun o => 0 <=? o) offs))).
Proof.
  induction offs as [|off offs IH]; [reflexivity|].
  rewrite row_of_ok_cons. cbn [List.filter].
  destruct (0 <=? off) eqn:Hoff.
  - by rewrite row_of_ok_cons, IH.
  - apply Z.leb_gt in Hoff. by rewrite slice_of_negative, IH.
Qed.

Lemma rows_of_ok_cons fs r ch chans :
  is_ok (fst (rows_of fs r (ch :: chans))) =
  match files fs !! channel_file r ch with
  | None => false
  | Some bs => is_ok (fst (row_of r (channel_file r ch) bs (start_offsets r))) &&
               is_ok (fst (rows_of fs r chans))
  end.
Proof.
  simpl. destruct (files fs !! channel_file r ch) as [bs|]; [|reflexivity].
  destruct (row_of r _ bs _) as [[row|x] ev1]; [|reflexivity].
  destruct (rows_of fs r chans) as [[rows|x] ev2]; reflexivity.
Qed.

Lemma rows_of_ok_drop_negative fs r chans :
  is_ok (fst (rows_of fs r chans)) = is_ok (fst (rows_of fs (drop_negative r) chans)).
Proof.
  induction chans as [|ch chans IH]; [reflexivity|].
  rewrite !rows_of_ok_cons, IH.
  change (channel_file (drop_negative r) ch) with (channel_file r ch).
  destruct (files fs !! channel_file r ch) as [bs|]; [|reflexivity].
  cbn [start_offsets drop_negative]. f_equal.
  rewrite row_of_ok_filter. f_equal. f_equal. by apply row_of_ext.
Qed.

Lemma resolved_drop_negative fs r :
  resolved fs (drop_negative r) =
  match resolved fs r with
  | (Ok r', evs) => (Ok (drop_negative r'), evs)
  | (Raise x, evs) => (Raise x, evs)
  end.
Proof.
  unfold resolved. cbn [read_size channels file_format drop_negative].
  destruct (read_size r <? 0); [|reflexivity].
  destruct (channels r) as [|ch chans]; [reflexivity|].
  change (channel_file (drop_negative r) ch) with (channel_file r ch).
  destruct (files fs !! channel_file r ch); [|reflexivity].
  destruct (data_size (file_format r) =? 0); reflexivity.
Qed.

Lemma binary_result_ok fs r :
  is_ok (fst (fst (binary_result fs r))) =
  match resolved fs r with
  | (Ok r', _) => is_ok (fst (rows_of fs r' (channels r')))
  | (Raise _, _) => false
  end.
Proof.
  unfold binary_result. destruct (resolved fs r) as [[r'|x] evs]; [|reflexivity].
  destruct (rows_of fs r' (channels r')) as [[rows|x] evs']; reflexivity.
Qed.

Lemma run_read_binary_ok fs r :
  registered (file_format r) ->
  is_ok (fst (run (read_binary fs) r)) = is_ok (fst (fst (binary_result fs r))).
Proof.
  intros Hreg. unfold run. rewrite read_binary_eq by done. cbn [self].
  destruct (binary_result fs r) as [[res r'] evs]. reflexivity.
Qed.

(** C4: a negative start offset never aborts the call (the call returns
    exactly when the call without the negative offsets returns); in a
    returned result its mask entry is False, its slice all sentinel and a
    diagnostic naming the offset and the file was printed; the mask entry of
    every non-negative offset is decided by its own window alone: the bytes
    the file returns after the seek to the int64 product of the byte width
    and that offset. *)
Theorem negative_offset_is_recoverable fs r :
  registered (file_format r) ->
  is_ok (fst (run (read_binary fs) r)) =
    is_ok (fst (run (read_binary fs) (drop_negative r))) /\
  forall t m s', run (read_binary fs) r = (Ok (t, m), s') ->
    forall c ch e off,
      channels r !! c = Some ch -> start_offsets r !! e = Some off ->
      (off < 0 ->
         mask_at m c e = Some false /\
         slice_at t c e = Some (nan_slice (Z.to_nat (read_size (self s')))) /\
         EvPrint (negative_offset_msg off (channel_file r ch)) ∈ log s') /\
      (0 <= off ->
         exists bs, files fs !! channel_file r ch = Some bs /\
                    mask_at m c e = Some (full_window (self s') bs off)).
Proof.
  intros Hreg. split.
  { rewrite !run_read_binary_ok, !binary_result_ok by done.
    rewrite resolved_drop_negative.
    destruct (resolved fs r) as [[r'|x] evs]; [|reflexivity].
    apply rows_of_ok_drop_negative. }
  intros t m s' Hrun c ch e off Hc He.
  destruct (read_binary_cells _ _ _ _ _ Hreg Hrun) as (evs & _ & _ & Hcells).
  destruct (Hcells c ch e off Hc He) as (bs & sl & ev & Hf & Hsl & Hm & Ht & Hin & _).
  split.
  - intros Hoff. rewrite slice_of_negative in Hsl by done.
    injection Hsl as <- <-. repeat split; auto.
    apply Hin. set_solver.
  - intros Hoff. exists bs. split; [done|]. rewrite Hm. f_equal.
    revert Hsl. unfold slice_of, full_window.
    rewrite (proj2 (Z.ltb_ge _ _) Hoff).
    destruct (seek_position _ off <? 0); [discriminate|].
    destruct (aligned _ _); [|discriminate].
    destruct (_ <? read_size (self s')) eqn:Hlt; intros [= <- _]; cbn [fst];
      symmetry; [apply Z.leb_gt; by apply Z.ltb_lt | apply Z.leb_le; by apply Z.ltb_ge].
Qed.

Lemma negative_offset_is_recoverable_witness :
  exists t m s',
    run (read_binary fs_root001) (reader_root001 [-5; 4] 4) = (Ok (t, m), s') /\
    mask_at m 0 0 = Some false /\
    slice_at t 0 0 = Some (nan_slice (Z.to_nat (read_size (self s')))) /\
    mask_at m 0 1 = Some true.
Proof.
  assert (exists t m s',
             run (read_binary fs_root001) (reader_root001 [-5; 4] 4) = (Ok (t, m), s') /\
             mask_at m 0 1 = Some true)
    as (t & m & s' & Hrun & Hm1)
    by (eexists _, _, _; split; vm_compute; reflexivity).
  exists t, m, s'. split; [exact Hrun|].
  destruct (proj2 (negative_offset_is_recoverable fs_root001 (reader_root001 [-5; 4] 4)
                     int16_format_registered)
              t m s' Hrun 0%nat "001" 0%nat (-5) eq_refl eq_refl) as [Hneg _].
  destruct (Hneg ltac:(lia)) as (H0 & H1 & _).
  repeat split; assumption.
Defined.

(** ** C5: format-name resolution at construction time *)

Lemma dict_get_valid_name name :
  is_Some (dict_get file_format_dict name) <-> name ∈ valid_format_names.
Proof.
  unfold valid_format_names, file_format_dict. cbn [dict_get]. split.
  - intros H.
    repeat match type of H with
           | is_Some (if String.eqb ?a ?b then _ else _) =>
               destruct (String.eqb_spec a b); [subst; set_solver|]
           end.
    by destruct H.
  - intros H. rewrite !elem_of_cons in H. rewrite elem_of_nil in H.
    repeat (destruct H as [->|H]; [vm_compute; eauto|]). done.
Qed.

(** C5: a format name that the table does not hold makes construction fail
    with a RuntimeError whose text lists the valid names, and nothing was
    opened (no event at all was logged); when the format key is absent the
    construction succeeds with the 2-byte int16 format and logs only a
    warning. *)
Theorem format_resolution_at_construction root chans offs rs params :
  (forall name,
     params !! "format" = Some (PStr name) -> name ∉ valid_format_names ->
     new_reader root chans offs rs params =
       (Raise (RuntimeError
                 ("Unsupported format: " +:+ name +:+ ". Allowed format names are: "
                    +:+ repr_list valid_format_names)), [])) /\
  (params !! "format" = None ->
     new_reader root chans offs rs params =
       (Ok {| dataroot := root; channels := chans; start_offsets := offs;
              read_size := rs;
              file_format := {| data_size := 2; format_string := "h" |};
              params_dict := params |},
        [EvWarn missing_format_msg])).
Proof.
  split.
  - intros name Hfmt Hname.
    assert (dict_get file_format_dict name = None) as Hnone.
    { destruct (dict_get file_format_dict name) eqn:E; [|done].
      exfalso. apply Hname, dict_get_valid_name. eauto. }
    unfold new_reader, init_body, bind, modify_self, try_except_KeyError, get_self,
      getitem. cbn [self log params_dict set_params_dict set_file_format init_attrs].
    rewrite Hfmt. unfold ret, format_dict_getitem. rewrite Hnone. reflexivity.
  - intros Hfmt.
    unfold new_reader, init_body, bind, modify_self, try_except_KeyError, get_self,
      getitem. cbn [self log params_dict set_params_dict set_file_format init_attrs].
    rewrite Hfmt. reflexivity.
Qed.

Lemma format_resolution_at_construction_witness :
  new_reader "root" ["001"] [0] 4 (<[ "format" := PStr "bogus" ]> params_gain2) =
    (Raise (RuntimeError
              "Unsupported format: bogus. Allowed format names are: ['single', 'float32', 'short', 'int16', 'int32', 'double', 'float64']"),
     []) /\
  fst (new_reader "root" ["001"] [0] 4 params_gain2) =
    Ok (reader_root001 [0] 4).
Proof.
  destruct (format_resolution_at_construction "root" ["001"] [0] 4
              (<[ "format" := PStr "bogus" ]> params_gain2)) as [Hbad _].
  destruct (format_resolution_at_construction "root" ["001"] [0] 4 params_gain2)
    as [_ Hmissing].
  split.
  - apply (Hbad "bogus"); [reflexivity|].
    unfold valid_format_names. intros H. rewrite !elem_of_cons in H.
    rewrite elem_of_nil in H. repeat (destruct H as [H|H]; [discriminate|]). exact H.
  - rewrite Hmissing; reflexivity.
Defined.

(** ** read_hdf5 as a function of the reader and the file system *)

Lemma astype_int_eq chans s :
  astype_int chans s =
  match parse_channels chans with
  | Some ns => (Ok ns, s)
  | None => (Raise (astype_error chans), s)
  end.
Proof.
  induction chans as [|ch chans IH]; simpl; [reflexivity|].
  destruct (parse_int ch) as [n|]; [|reflexivity].
  destruct (in_int64 n).
  - unfold bind. rewrite IH. destruct (parse_channels chans); reflexivity.
  - destruct (parse_channels chans); reflexivity.
Qed.

Lemma read_hdf5_eq fs s :
  read_hdf5 fs s =
  (fst (hdf5_result fs (self s)), add_log (snd (hdf5_result fs (self s))) s).
Proof.
  unfold read_hdf5, hdf5_result. unfold bind at 1. unfold get_self at 1.
  destruct (tables fs !! dataroot (self s)) as [eegfile|];
    [|unfold raise; by rewrite add_log_nil].
  unfold bind at 1. rewrite emit_eq. unfold bind at 1. rewrite astype_int_eq.
  destruct (parse_channels (channels (self s))) as [wanted|]; [|reflexivity].
  destruct (read_size (self s) <? 0); reflexivity.
Qed.

(** The tabular backend raises on every path. *)
Lemma hdf5_result_fails fs r : is_ok (fst (hdf5_result fs r)) = false.
Proof.
  unfold hdf5_result. destruct (tables fs !! dataroot r); [|reflexivity].
  destruct (parse_channels (channels r)); [|reflexivity].
  destruct (read_size r <? 0); reflexivity.
Qed.

(** ** The assembly of the result *)

Lemma read_assemble_eq res s :
  read_assemble res s = (fst (run (read_assemble res) (self s)), s).
Proof.
  unfold run, read_assemble. destruct res as [eventdata read_ok_mask].
  unfold bind, get_self, getitem. cbn [self].
  destruct (params_dict (self s) !! "gain") as [[g|g]|]; try reflexivity.
  destruct (params_dict (self s) !! "samplerate") as [sr|]; try reflexivity.
  unfold new_DataArray. cbn [imul ret shape3].
  destruct (shape3 eventdata) as [[d0 d1] d2].
  destruct (_ && _); reflexivity.
Qed.

Lemma read_eq fs s :
  read fs s =
  match backend fs (self s) s with
  | (Ok res, s') => (fst (run (read_assemble res) (self s')), s')
  | (Raise x, s') => (Raise x, s')
  end.
Proof.
  unfold read, backend. unfold bind at 1. unfold get_self at 1. unfold bind at 1.
  destruct (negb (endswith (dataroot (self s)) "h5"));
    [destruct (read_binary fs s) as [[res|x] s'] | destruct (read_hdf5 fs s) as [[res|x] s']];
    try reflexivity; apply read_assemble_eq.
Qed.

Lemma read_hdf5_backend fs r :
  endswith (dataroot r) "h5" = true ->
  is_ok (fst (run (read fs) r)) = is_ok (fst (run (read_hdf5 fs) r)).
Proof.
  intros Hh5. unfold run. rewrite read_eq. unfold backend. cbn [self].
  rewrite Hh5. cbn [negb]. rewrite read_hdf5_eq. cbn [self fst].
  pose proof (hdf5_result_fails fs r) as H.
  destruct (fst (hdf5_result fs r)); [discriminate|reflexivity].
Qed.

(** ** C6: the tabular backend with a resolved read_size *)

(** C6 (the code departs from the claim): with a resolved, non-negative
    read_size the tabular backend never returns: once the container is open
    and the channel labels are converted, line 126 raises TypeError before
    the loop over the start offsets is entered, so no slice is read, stored
    or marked, and read fails in the same way. *)
Theorem read_hdf5_resolved_never_returns fs r :
  0 <= read_size r ->
  is_ok (fst (run (read_hdf5 fs) r)) = false /\
  (forall eegfile wanted,
     tables fs !! dataroot r = Some eegfile ->
     parse_channels (channels r) = Some wanted ->
     run (read_hdf5 fs) r =
       (Raise TypeError, {| self := r; log := [EvOpenTable (dataroot r)] |}) /\
     (endswith (dataroot r) "h5" = true -> fst (run (read fs) r) = Raise TypeError)).
Proof.
  intros Hrs. apply Z.ltb_ge in Hrs.
  unfold run. rewrite read_eq, read_hdf5_eq. unfold backend. cbn [self].
  unfold hdf5_result. rewrite Hrs. split.
  - destruct (tables fs !! dataroot r); [|reflexivity].
    destruct (parse_channels (channels r)); reflexivity.
  - intros eegfile wanted Ht Hp. rewrite Ht, Hp. split; [reflexivity|].
    intros ->. cbn [negb]. rewrite read_hdf5_eq. unfold hdf5_result. cbn [self].
    by rewrite Ht, Hp, Hrs.
Qed.

Lemma read_hdf5_resolved_never_returns_witness :
  run (read_hdf5 fs_h5) (reader_h5 ["1"] [0; 4] 4) =
    (Raise TypeError,
     {| self := reader_h5 ["1"] [0; 4] 4; log := [EvOpenTable "data.h5"] |}) /\
  fst (run (read fs_h5) (reader_h5 ["1"] [0; 4] 4)) = Raise TypeError.
Proof.
  destruct (read_hdf5_resolved_never_returns fs_h5 (reader_h5 ["1"] [0; 4] 4)
              ltac:(simpl; lia)) as [_ H].
  destruct (H table_2x8 [1] eq_refl eq_refl) as [H1 H2].
  split; [exact H1 | exact (H2 eq_refl)].
Defined.

(** ** C7: requested channels that are absent *)

Lemma rows_of_missing fs r chans : forall c ch,
  chans !! c = Some ch -> files fs !! channel_file r ch = None ->
  is_ok (fst (rows_of fs r chans)) = false.
Proof.
  induction chans as [|ch0 chans IH]; intros c ch Hc Hf; [discriminate|].
  rewrite rows_of_ok_cons. destruct c as [|c]; simpl in Hc.
  - injection Hc as ->. by rewrite Hf.
  - destruct (files fs !! channel_file r ch0); [|reflexivity].
    rewrite (IH c ch Hc Hf). apply andb_false_r.
Qed.

(** C7: a requested channel that is absent aborts the whole call. In the
    binary backend a requested channel whose file is missing makes
    read_binary fail, and read with it. In the tabular backend a requested
    channel without an entry in the container's port index makes read_hdf5
    fail, and read with it; and the tabular backend returns no selection at
    all, of zero width or any other: after the port index was compared with
    the request, the whole-file branch raises at line 118 and the other
    branch at line 126. *)
Theorem absent_channel_is_fatal fs r :
  (registered (file_format r) ->
   forall c ch,
     channels r !! c = Some ch -> files fs !! channel_file r ch = None ->
     is_ok (fst (run (read_binary fs) r)) = false /\
     (endswith (dataroot r) "h5" = false -> is_ok (fst (run (read fs) r)) = false)) /\
  absent_port_is_fatal fs r /\
  (forall eegfile wanted w,
     tables fs !! dataroot r = Some eegfile ->
     parse_channels (channels r) = Some wanted ->
     w ∈ wanted -> w ∉ ports eegfile ->
     endswith (dataroot r) "h5" = true ->
     is_ok (fst (run (read fs) r)) = false) /\
  (forall t m, fst (run (read_hdf5 fs) r) <> Ok (t, m)).
Proof.
  assert (is_ok (fst (run (read_hdf5 fs) r)) = false) as Hfail.
  { unfold run. rewrite read_hdf5_eq. cbn [self fst]. apply hdf5_result_fails. }
  split; [|split; [|split]].
  - intros Hreg c ch Hc Hf.
    assert (is_ok (fst (run (read_binary fs) r)) = false) as Hbin.
    { rewrite run_read_binary_ok, binary_result_ok by done.
      destruct (resolved fs r) as [[r'|x] evs] eqn:Hres; [|reflexivity].
      destruct (resolved_inv _ _ _ _ Hres) as (Hroot & Hch & _).
      apply (rows_of_missing fs r' _ c ch); [congruence|].
      unfold channel_file in *. by rewrite Hroot. }
    split; [done|]. intros Hh5.
    unfold run in *. rewrite read_eq. unfold backend. cbn [self]. rewrite Hh5.
    cbn [negb]. destruct (read_binary fs _) as [[res|x] s']; [discriminate|reflexivity].
  - intros eegfile wanted w _ _ _ _. exact Hfail.
  - intros eegfile wanted w _ _ _ _ Hh5. by rewrite read_hdf5_backend.
  - intros t m Hok. rewrite Hok in Hfail. discriminate.
Qed.

Lemma absent_channel_is_fatal_witness :
  is_ok (fst (run (read_binary fs_root001)
                {| dataroot := "root"; channels := ["001"; "002"]; start_offsets := [0];
                   read_size := 4; file_format := int16_format;
                   params_dict := params_gain2 |})) = false /\
  is_ok (fst (run (read_hdf5 fs_h5) (reader_h5 ["1"; "7"] [0] (-1)))) = false /\
  is_ok (fst (run (read fs_h5) (reader_h5 ["1"; "7"] [0] (-1)))) = false.
Proof.
  split; [|split].
  - refine (proj1 (proj1 (absent_channel_is_fatal fs_root001
                            {| dataroot := "root"; channels := ["001"; "002"];
                               start_offsets := [0]; read_size := 4;
                               file_format := int16_format;
                               params_dict := params_gain2 |})
                     int16_format_registered 1%nat "002" eq_refl _)).
    vm_compute. reflexivity.
  - refine (proj1 (proj2 (absent_channel_is_fatal fs_h5 (reader_h5 ["1"; "7"] [0] (-1))))
              table_2x8 [1; 7] 7 eq_refl eq_refl _ _).
    + set_solver.
    + cbn [ports table_2x8]. rewrite !elem_of_cons, elem_of_nil.
      intros [H | [H | H]]; [discriminate|discriminate|exact H].
  - refine (proj1 (proj2 (proj2 (absent_channel_is_fatal fs_h5
                                   (reader_h5 ["1"; "7"] [0] (-1)))))
              table_2x8 [1; 7] 7 eq_refl eq_refl _ _ eq_refl).
    + set_solver.
    + cbn [ports table_2x8]. rewrite !elem_of_cons, elem_of_nil.
      intros [H | [H | H]]; [discriminate|discriminate|exact H].
Defined.

(** ** C8: reading twice *)

Lemma binary_result_reader fs r res r' evs :
  registered (file_format r) ->
  binary_result fs r = (res, r', evs) ->
  r' = r \/ (read_size r < 0 /\ exists n, 0 <= n /\ r' = set_read_size n r).
Proof.
  intros Hreg. destruct (registered_size _ Hreg) as [Hds _].
  unfold binary_result, resolved.
  destruct (read_size r <? 0) eqn:Hrs.
  2:{ destruct (rows_of fs r (channels r)) as [[rows|x] evs']; intros [= _ <- _]; auto. }
  apply Z.ltb_lt in Hrs.
  destruct (channels r) as [|ch chans]; [intros [= _ <- _]; auto|].
  destruct (files fs !! channel_file r ch) as [bs|]; [|intros [= _ <- _]; auto].
  rewrite (proj2 (Z.eqb_neq _ _)) by lia.
  set (n := Z.quot _ _).
  assert (0 <= n) by (apply Z.quot_pos; lia).
  destruct (rows_of fs (set_read_size n r) _) as [[rows|x] evs'];
    intros [= _ <- _]; right; eauto.
Qed.

Lemma binary_result_again fs r res r' evs :
  registered (file_format r) ->
  binary_result fs r = (res, r', evs) ->
  exists evs', binary_result fs r' = (res, r', evs').
Proof.
  intros Hreg Hb. unfold binary_result in *.
  destruct (resolved fs r) as [[r1|x] ev1] eqn:Hres.
  2:{ injection Hb as <- <- <-. rewrite Hres. eauto. }
  destruct (resolved_inv _ _ _ _ Hres) as (_ & _ & _ & _ & _ & Hrs & _).
  destruct (registered_size _ Hreg) as [Hds _]. specialize (Hrs Hds).
  assert (r' = r1) as ->
    by (destruct (rows_of fs r1 (channels r1)) as [[rows|x] evs']; by injection Hb).
  rewrite (resolved_nonneg fs r1 Hrs).
  destruct (rows_of fs r1 (channels r1)) as [[rows|x] evs'];
    injection Hb as <- _; eauto.
Qed.

(** C8: a second read on the reader the first read leaves behind, over the
    same files, has the outcome of the first (the same tensor with its
    labels and metadata and the same mask, cell for cell; or the same
    failure), and does not change the reader again. The only trace the first
    read leaves on the reader is an unresolved read_size of the binary
    backend pinned to its resolved, non-negative value. *)
Theorem read_twice fs r res s1 :
  registered (file_format r) ->
  run (read fs) r = (res, s1) ->
  fst (run (read fs) (self s1)) = res /\
  self (snd (run (read fs) (self s1))) = self s1 /\
  (self s1 = r \/
   (read_size r < 0 /\ endswith (dataroot r) "h5" = false /\
    exists n, 0 <= n /\ self s1 = set_read_size n r)).
Proof.
  intros Hreg. unfold run. rewrite read_eq. unfold backend. cbn [self].
  destruct (endswith (dataroot r) "h5") eqn:Hh5; cbn [negb].
  - (* tabular backend: the reader is left as it was *)
    rewrite read_hdf5_eq. cbn [self].
    destruct (hdf5_result fs r) as [[arrs|x] evs] eqn:Hres; cbn [fst snd];
      intros [= <- <-]; cbn [self add_log];
      rewrite read_eq; unfold backend; cbn [self]; rewrite Hh5; cbn [negb];
      rewrite read_hdf5_eq; cbn [self]; rewrite Hres; cbn [fst snd self add_log]; auto.
  - rewrite read_binary_eq by done. cbn [self log].
    destruct (binary_result fs r) as [[resb r'] evs] eqn:Hb.
    destruct (binary_result_again _ _ _ _ _ Hreg Hb) as [evs' Hb'].
    destruct (binary_result_reader _ _ _ _ _ Hreg Hb) as [Hr | (Hrs & n & Hn & Hr)].
    + subst r'. intros Hrun.
      assert (self s1 = r) as Hs1 by (destruct resb; simplify_eq; done).
      rewrite Hs1.
      rewrite read_eq. unfold backend. cbn [self]. rewrite Hh5. cbn [negb].
      rewrite read_binary_eq by done. cbn [self log]. rewrite Hb.
      destruct resb; simplify_eq; cbn [fst snd self]; auto.
    + assert (dataroot r' = dataroot r /\ file_format r' = file_format r) as [Hroot Hfmt]
        by (subst r'; split; reflexivity).
      intros Hrun.
      assert (self s1 = r') as Hs1 by (destruct resb; simplify_eq; done).
      rewrite Hs1.
      rewrite read_eq. unfold backend. cbn [self]. rewrite Hroot, Hh5. cbn [negb].
      rewrite read_binary_eq by (cbn [self]; by rewrite Hfmt). cbn [self log].
      rewrite Hb'.
      split; [destruct resb; simplify_eq; reflexivity|].
      split; [destruct resb; reflexivity|].
      right. eauto.
Qed.

Lemma read_twice_witness :
  exists res s1,
    run (read fs_root001) (reader_root001 [0] (-1)) = (res, s1) /\
    is_ok res = true /\
    fst (run (read fs_root001) (self s1)) = res /\
    read_size (self s1) = 8.
Proof.
  assert (exists res s1,
             run (read fs_root001) (reader_root001 [0] (-1)) = (res, s1) /\
             is_ok res = true /\ read_size (self s1) = 8)
    as (res & s1 & Hrun & Hok & Hrs)
    by (eexists _, _; repeat split; vm_compute; reflexivity).
  exists res, s1. repeat split; auto.
  exact (proj1 (read_twice fs_root001 (reader_root001 [0] (-1)) res s1
                  int16_format_registered Hrun)).
Defined.

(** ** C9: requests without channels or without start offsets *)

(** C9 (as stated) fails on the code: without start offsets the call
    returns, having opened the channel's file; without channels and with a
    resolved read_size it returns as well. *)
Lemma empty_request_is_not_rejected :
  ~ empty_request_rejected fs_root001 (reader_root001 [] 4) /\
  EvOpen "root.001" ∈ log (snd (run (read_binary fs_root001) (reader_root001 [] 4))) /\
  ~ empty_request_rejected fs_root001 (reader_no_channels [0] 4).
Proof.
  split; [|split].
  - intros H. destruct (H (or_intror eq_refl)) as [Hok _].
    vm_compute in Hok. discriminate.
  - vm_compute. set_solver.
  - intros H. destruct (H (or_introl eq_refl)) as [Hok _].
    vm_compute in Hok. discriminate.
Qed.

Lemma rows_of_no_offsets fs r chans :
  start_offsets r = [] ->
  (forall ch, ch ∈ chans -> is_Some (files fs !! channel_file r ch)) ->
  rows_of fs r chans =
  (Ok (map (fun _ => []) chans),
   flat_map (fun ch => [EvOpen (channel_file r ch); EvClose (channel_file r ch)]) chans).
Proof.
  intros Hoffs. induction chans as [|ch chans IH]; intros Hfiles; [reflexivity|].
  cbn [rows_of]. destruct (Hfiles ch ltac:(set_solver)) as [bs ->].
  rewrite Hoffs. cbn [row_of]. rewrite IH by set_solver. reflexivity.
Qed.

(** C9 (as amended): a request without start offsets is not rejected: with
    a resolved read_size and every channel file present the binary backend
    opens and closes each channel's file in turn and returns a tensor of
    shape (channels, 0, read_size) and a mask with an empty row per channel.
    A request without channels opens no file: with a resolved read_size it
    returns an empty tensor and an empty mask, and with an unresolved
    read_size it fails with IndexError before any file is touched. *)
Theorem empty_request_outcomes fs r :
  registered (file_format r) ->
  (start_offsets r = [] -> 0 <= read_size r ->
   (forall ch, ch ∈ channels r -> is_Some (files fs !! channel_file r ch)) ->
   run (read_binary fs) r =
     (Ok ({| shape3 := (length (channels r), 0%nat, Z.to_nat (read_size r));
             cells := map (fun _ => []) (channels r) |},
          map (fun _ => []) (channels r)),
      {| self := r;
         log := flat_map (fun ch => [EvOpen (channel_file r ch);
                                     EvClose (channel_file r ch)]) (channels r) |})) /\
  (channels r = [] -> 0 <= read_size r ->
   run (read_binary fs) r =
     (Ok ({| shape3 := (0%nat, length (start_offsets r), Z.to_nat (read_size r));
             cells := [] |}, []),
      {| self := r; log := [] |})) /\
  (channels r = [] -> read_size r < 0 ->
   run (read_binary fs) r = (Raise IndexError, {| self := r; log := [] |})).
Proof.
  intros Hreg. unfold run. rewrite read_binary_eq by done. cbn [self log].
  unfold binary_result. repeat split.
  - intros Hoffs Hrs Hfiles. rewrite resolved_nonneg by done.
    rewrite rows_of_no_offsets by done.
    unfold arrays_of_rows. rewrite Hoffs, !List.map_map. reflexivity.
  - intros Hch Hrs. rewrite resolved_nonneg by done. rewrite Hch. simpl.
    unfold arrays_of_rows. by rewrite Hch.
  - intros Hch Hrs. unfold resolved. by rewrite (proj2 (Z.ltb_lt _ _) Hrs), Hch.
Qed.

Lemma empty_request_outcomes_witness :
  run (read_binary fs_root001) (reader_root001 [] 4) =
    (Ok ({| shape3 := (1%nat, 0%nat, 4%nat); cells := [[]] |}, [[]]),
     {| self := reader_root001 [] 4;
        log := [EvOpen "root.001"; EvClose "root.001"] |}) /\
  run (read_binary fs_root001) (reader_no_channels [0] 4) =
    (Ok ({| shape3 := (0%nat, 1%nat, 4%nat); cells := [] |}, []),
     {| self := reader_no_channels [0] 4; log := [] |}) /\
  run (read_binary fs_root001) (reader_no_channels [0] (-1)) =
    (Raise IndexError, {| self := reader_no_channels [0] (-1); log := [] |}).
Proof.
  split; [|split].
  - refine (proj1 (empty_request_outcomes fs_root001 (reader_root001 [] 4)
                     int16_format_registered) eq_refl ltac:(simpl; lia) _).
    intros ch Hch. apply list_elem_of_singleton in Hch. subst ch.
    vm_compute. eauto.
  - exact (proj1 (proj2 (empty_request_outcomes fs_root001 (reader_no_channels [0] 4)
                           int16_format_registered)) eq_refl ltac:(simpl; lia)).
  - exact (proj2 (proj2 (empty_request_outcomes fs_root001 (reader_no_channels [0] (-1))
                           int16_format_registered)) eq_refl ltac:(simpl; lia)).
Defined.

(** ** C10: the decode step follows the bytes the file returned *)









(** * Further properties of the reader *)

(** ** Windows of a file that is a whole number of samples long *)

(** The window after a seek to the first byte of sample [k]. *)
Lemma window_length_whole r bs off k :
  0 < data_size (file_format r) -> 0 <= read_size r -> 0 <= k ->
  seek_position r off = data_size (file_format r) * k ->
  whole_file r bs ->
  Z.of_nat (length (window r bs off)) =
  data_size (file_format r) * Z.min (read_size r) (Z.max 0 (file_samples r bs - k)).
Proof.
  intros Hds Hrs Hk Hpos Hwhole. unfold whole_file, file_samples in *.
  unfold window. rewrite Hpos, length_take, length_drop.
  set (ds := data_size (file_format r)) in *.
  pose proof (Z.div_mod (Z.of_nat (length bs)) ds ltac:(lia)) as Hdm.
  rewrite Hwhole, Z.add_0_r in Hdm.
  set (N := Z.of_nat (length bs) / ds) in *.
  assert (0 <= N) by (apply Z.div_pos; lia).
  destruct (Z.min_spec (read_size r) (Z.max 0 (N - k))) as [[? ->] | [? ->]];
    destruct (Z.max_spec 0 (N - k)) as [[? Hm] | [? Hm]]; rewrite ?Hm in *; nia.
Qed.

Lemma window_whole r bs off k :
  0 < data_size (file_format r) -> 0 <= read_size r -> 0 <= k ->
  seek_position r off = data_size (file_format r) * k ->
  whole_file r bs ->
  aligned r (window r bs off) = true /\
  Z.of_nat (length (decode_window r (window r bs off))) =
    Z.min (read_size r) (Z.max 0 (file_samples r bs - k)).
Proof.
  intros Hds Hrs Hk Hpos Hwhole.
  pose proof (window_length_whole r bs off k Hds Hrs Hk Hpos Hwhole) as Hlen.
  set (q := Z.min _ _) in *.
  assert (0 <= q) by (unfold q; lia).
  assert (Z.quot (Z.of_nat (length (window r bs off))) (data_size (file_format r)) = q)
    as Hq.
  { rewrite Z.quot_div_nonneg by lia. rewrite Hlen, Z.mul_comm.
    apply Z.div_mul. lia. }
  split.
  - unfold aligned. rewrite Hq. apply Z.eqb_eq. lia.
  - rewrite length_decode_window, Hq. lia.
Qed.




(** The mask entry of a non-negative offset into a file that is a whole
    number of samples long, when the byte position of the offset fits an
    int64. *)
Lemma read_binary_mask_whole fs r t m s' c ch e off bs :
  registered (file_format r) ->
  run (read_binary fs) r = (Ok (t, m), s') ->
  channels r !! c = Some ch -> start_offsets r !! e = Some off ->
  files fs !! channel_file r ch = Some bs -> whole_file r bs -> 0 <= off ->
  fits_int64 r off ->
  0 <= read_size (self s') /\
  mask_at m c e =
    Some (read_size (self s') <=?
            Z.min (read_size (self s')) (Z.max 0 (file_samples r bs - off))).
Proof.
  intros Hreg Hrun Hc He Hf Hwhole Hoff Hfit.
  destruct (read_binary_cells _ _ _ _ _ Hreg Hrun) as (evs & Hres & _ & Hcells).
  destruct (resolved_inv _ _ _ _ Hres) as (_ & _ & _ & Hfmt & _ & Hrs & _).
  destruct (registered_size _ Hreg) as [Hds _]. specialize (Hrs Hds).
  destruct (Hcells c ch e off Hc He) as (bs' & sl & ev & Hf' & Hsl & Hm & _).
  rewrite Hf in Hf'. injection Hf' as <-.
  split; [done|]. rewrite Hm. f_equal.
  assert (whole_file (self s') bs) as Hwhole' by (unfold whole_file; by rewrite Hfmt).
  assert (file_samples (self s') bs = file_samples r bs) as Hn
    by (unfold file_samples; by rewrite Hfmt).
  assert (seek_position (self s') off = data_size (file_format (self s')) * off) as Hpos.
  { apply seek_position_fits; [by rewrite Hfmt|done|].
    unfold fits_int64 in *. by rewrite Hfmt. }
  destruct (window_whole (self s') bs off off ltac:(by rewrite Hfmt) Hrs Hoff Hpos Hwhole')
    as [Hal Hcount].
  revert Hsl. unfold slice_of. rewrite (proj2 (Z.ltb_ge _ _) Hoff).
  rewrite (proj2 (Z.ltb_ge (seek_position (self s') off) 0)) by (rewrite Hpos, Hfmt; nia).
  rewrite Hal, Hcount, Hn.
  set (q := Z.min _ _).
  destruct (q <? read_size (self s')) eqn:Hlt; intros [= <- _]; cbn [fst]; symmetry.
  - apply Z.leb_gt. by apply Z.ltb_lt.
  - apply Z.leb_le. by apply Z.ltb_ge.
Qed.

(** ** The shape of the result, the bounds of a window and the calls that
    return *)

Lemma row_of_slice_lengths r fname bs offs : forall sls evs,
  registered (file_format r) -> 0 <= read_size r ->
  row_of r fname bs offs = (Ok sls, evs) ->
  Forall (fun sl => length (snd sl) = Z.to_nat (read_size r)) sls.
Proof.
  induction offs as [|off offs IH]; simpl; intros sls evs Hreg Hrs.
  { intros [= <- <-]. constructor. }
  destruct (slice_of r fname bs off) as [[[b xs]|x] ev1] eqn:Hsl; [|discriminate].
  destruct (row_of r fname bs offs) as [[sls'|x] ev2]; [|discriminate].
  intros [= <- <-]. constructor; eauto using slice_of_length.
Qed.

Lemma rows_of_slice_lengths fs r chans : forall rows evs,
  registered (file_format r) -> 0 <= read_size r ->
  rows_of fs r chans = (Ok rows, evs) ->
  Forall (Forall (fun sl => length (snd sl) = Z.to_nat (read_size r))) rows.
Proof.
  induction chans as [|ch chans IH]; simpl; intros rows evs Hreg Hrs.
  { intros [= <- <-]. constructor. }
  destruct (files fs !! channel_file r ch) as [bs|]; [|discriminate].
  destruct (row_of r _ bs _) as [[row|x] ev1] eqn:Hrow; [|discriminate].
  destruct (rows_of fs r chans) as [[rows'|x] ev2]; [|discriminate].
  intros [= <- <-]. constructor; eauto using row_of_slice_lengths.
Qed.

(** X1: a binary read that returns gives a tensor whose nested lists have
    exactly the dimensions of its shape, (channels, start offsets,
    read_size) with the read_size the reader holds afterwards, and a mask
    with one row per channel and one entry per start offset. *)
Theorem read_binary_shape fs r t m s' :
  registered (file_format r) ->
  run (read_binary fs) r = (Ok (t, m), s') ->
  shape3 t = (length (channels r), length (start_offsets r),
              Z.to_nat (read_size (self s'))) /\
  length (cells t) = length (channels r) /\
  length m = length (channels r) /\
  (forall c row, cells t !! c = Some row ->
     length row = length (start_offsets r) /\
     forall e xs, row !! e = Some xs -> length xs = Z.to_nat (read_size (self s'))) /\
  (forall c mrow, m !! c = Some mrow -> length mrow = length (start_offsets r)).
Proof.
  intros Hreg. unfold run. rewrite read_binary_eq by done. cbn [self log].
  unfold binary_result.
  destruct (resolved fs r) as [[r'|x] evs] eqn:Hres; [|discriminate].
  destruct (resolved_inv _ _ _ _ Hres) as (_ & Hch & Hoffs & Hfmt & _ & Hrs & _).
  destruct (registered_size _ Hreg) as [Hds _]. specialize (Hrs Hds).
  destruct (rows_of fs r' (channels r')) as [[rows|x] evs'] eqn:Hrows; [|discriminate].
  intros [= <- <- <-]. cbn [self shape3 cells].
  destruct (rows_of_shape _ _ _ _ _ Hrows) as [Hlen Hwf].
  pose proof (rows_of_slice_lengths _ _ _ _ _ ltac:(by rewrite Hfmt) Hrs Hrows) as Hsl.
  rewrite !length_map, Hlen, Hch, Hoffs.
  repeat split; auto.
  - rewrite lookup_map in H. destruct (rows !! c) as [row'|] eqn:Hr; [|discriminate].
    injection H as <-. rewrite length_map.
    rewrite Forall_lookup in Hwf. destruct (Hwf _ _ Hr) as [Hl _]. congruence.
  - intros e xs He. rewrite lookup_map in H.
    destruct (rows !! c) as [row'|] eqn:Hr; [|discriminate].
    injection H as <-. rewrite lookup_map in He.
    destruct (row' !! e) as [sl|] eqn:Hs; [|discriminate]. injection He as <-.
    rewrite Forall_lookup in Hsl. specialize (Hsl _ _ Hr).
    rewrite Forall_lookup in Hsl. exact (Hsl _ _ Hs).
  - intros c mrow Hm. rewrite lookup_map in Hm.
    destruct (rows !! c) as [row'|] eqn:Hr; [|discriminate].
    injection Hm as <-. rewrite length_map.
    rewrite Forall_lookup in Hwf. destruct (Hwf _ _ Hr) as [Hl _]. congruence.
Qed.

Lemma read_binary_shape_witness :
  exists t m s',
    run (read_binary fs_root001) (reader_root001 [0; 6] 4) = (Ok (t, m), s') /\
    shape3 t = (1%nat, 2%nat, 4%nat) /\ length (cells t) = 1%nat /\ length m = 1%nat.
Proof.
  assert (exists t m s',
             run (read_binary fs_root001) (reader_root001 [0; 6] 4) = (Ok (t, m), s') /\
             read_size (self s') = 4)
    as (t & m & s' & Hrun & Hrs) by (eexists _, _, _; split; vm_compute; reflexivity).
  exists t, m, s'. split; [exact Hrun|].
  destruct (read_binary_shape fs_root001 (reader_root001 [0; 6] 4) t m s'
              int16_format_registered Hrun) as (H1 & H2 & H3 & _).
  rewrite Hrs in H1. repeat split; assumption.
Defined.

(** X2: for a channel file that is a whole number of samples long, a
    non-negative start offset whose byte position (byte width times offset)
    fits an int64 and a positive read_size, the mask entry is True exactly
    when the window [offset, offset + read_size) lies within the samples of
    the file. *)
Theorem mask_true_iff_window_in_file fs r t m s' c ch e off bs :
  registered (file_format r) ->
  run (read_binary fs) r = (Ok (t, m), s') ->
  channels r !! c = Some ch -> start_offsets r !! e = Some off ->
  files fs !! channel_file r ch = Some bs -> whole_file r bs ->
  0 <= off -> fits_int64 r off -> 0 < read_size (self s') ->
  exists b, mask_at m c e = Some b /\
            (b = true <-> off + read_size (self s') <= file_samples r bs).
Proof.
  intros Hreg Hrun Hc He Hf Hwhole Hoff Hfit Hpos.
  destruct (read_binary_mask_whole _ _ _ _ _ _ _ _ _ _ Hreg Hrun Hc He Hf Hwhole Hoff
              Hfit) as [Hrs ->].
  eexists. split; [reflexivity|]. rewrite Z.leb_le. lia.
Qed.

Lemma mask_true_iff_window_in_file_witness :
  exists t m s',
    run (read_binary fs_root001) (reader_root001 [0; 6] 4) = (Ok (t, m), s') /\
    exists b, mask_at m 0 1 = Some b /\
              (b = true <-> 6 + read_size (self s') <= file_samples
                                (reader_root001 [0; 6] 4) bytes_1_to_8).
Proof.
  assert (exists t m s',
             run (read_binary fs_root001) (reader_root001 [0; 6] 4) = (Ok (t, m), s') /\
             read_size (self s') = 4)
    as (t & m & s' & Hrun & Hrs) by (eexists _, _, _; split; vm_compute; reflexivity).
  exists t, m, s'. split; [exact Hrun|].
  apply (mask_true_iff_window_in_file fs_root001 (reader_root001 [0; 6] 4) t m s'
           0%nat "001" 1%nat 6 bytes_1_to_8 int16_format_registered Hrun
           eq_refl eq_refl eq_refl eq_refl);
    [lia | vm_compute; reflexivity | rewrite Hrs; lia].
Defined.



(** X4: when read_size is unresolved, every channel is read with the
    sample count of the first channel's file: a channel whose (whole) file
    is shorter than the first one gets mask False at offset 0 instead of an
    error, and a channel whose file is at least as long gets mask True. *)
Theorem unresolved_read_size_follows_first_channel
    fs r t m s' ch0 chans bs0 c ch bs e :
  registered (file_format r) -> read_size r < 0 ->
  channels r = ch0 :: chans -> files fs !! channel_file r ch0 = Some bs0 ->
  0 < file_samples r bs0 ->
  run (read_binary fs) r = (Ok (t, m), s') ->
  channels r !! c = Some ch -> files fs !! channel_file r ch = Some bs ->
  whole_file r bs -> start_offsets r !! e = Some 0 ->
  read_size (self s') = file_samples r bs0 /\
  exists b, mask_at m c e = Some b /\
            (b = true <-> file_samples r bs0 <= file_samples r bs).
Proof.
  intros Hreg Hrs Hch Hf0 Hpos Hrun Hc Hf Hwhole He.
  destruct (read_binary_cells _ _ _ _ _ Hreg Hrun) as (evs & Hres & _).
  rewrite (resolved_negative fs r ch0 chans bs0) in Hres by done.
  injection Hres as Hself _.
  assert (read_size (self s') = file_samples r bs0) as Hn by (by rewrite <- Hself).
  split; [done|].
  destruct (read_binary_mask_whole _ _ _ _ _ _ _ _ _ _ Hreg Hrun Hc He Hf Hwhole
              ltac:(lia) ltac:(unfold fits_int64; lia)) as [_ ->].
  eexists. split; [reflexivity|]. rewrite Z.leb_le, Hn. lia.
Qed.

Lemma unresolved_read_size_follows_first_channel_witness :
  exists t m s',
    run (read_binary fs_two_channels) (reader_two_channels [0] (-1)) = (Ok (t, m), s') /\
    read_size (self s') = 8 /\ mask_at m 1 0 = Some false.
Proof.
  assert (exists t m s',
             run (read_binary fs_two_channels) (reader_two_channels [0] (-1)) =
               (Ok (t, m), s'))
    as (t & m & s' & Hrun) by (eexists _, _, _; vm_compute; reflexivity).
  exists t, m, s'. split; [exact Hrun|].
  destruct (unresolved_read_size_follows_first_channel fs_two_channels
              (reader_two_channels [0] (-1)) t m s' "001" ["002"] bytes_1_to_8
              1%nat "002" (take 8 bytes_1_to_8) 0%nat int16_format_registered
              ltac:(simpl; lia) eq_refl eq_refl ltac:(vm_compute; reflexivity) Hrun
              eq_refl eq_refl eq_refl eq_refl) as (Hrs & b & Hm & Hb).
  split; [exact Hrs|]. rewrite Hm. f_equal.
  destruct b; [|reflexivity]. exfalso.
  assert (file_samples (reader_two_channels [0] (-1)) bytes_1_to_8 <=
          file_samples (reader_two_channels [0] (-1)) (take 8 bytes_1_to_8)) as Hle
    by (apply Hb; reflexivity).
  vm_compute in Hle. apply Hle. reflexivity.
Defined.

(** ** Diagnostics and file handles *)

Lemma diagnostics_app l1 l2 : diagnostics (l1 ++ l2) = (diagnostics l1 + diagnostics l2)%nat.
Proof. unfold diagnostics. by rewrite List.filter_app, length_app. Qed.

Lemma slice_of_diagnostics r fname bs off b xs evs :
  slice_of r fname bs off = (Ok (b, xs), evs) ->
  diagnostics evs = if b then 0%nat else 1%nat.
Proof.
  unfold slice_of. destruct (off <? 0); [by intros [= <- _ <-]|].
  destruct (seek_position r off <? 0); [discriminate|].
  destruct (aligned _ _); [|discriminate].
  destruct (_ <? read_size r); by intros [= <- _ <-].
Qed.

Lemma row_of_diagnostics r fname bs offs : forall sls evs,
  row_of r fname bs offs = (Ok sls, evs) ->
  diagnostics evs = length (List.filter negb (map fst sls)).
Proof.
  induction offs as [|off offs IH]; simpl; intros sls evs; [by intros [= <- <-]|].
  destruct (slice_of r fname bs off) as [[[b xs]|x] ev1] eqn:Hsl; [|discriminate].
  destruct (row_of r fname bs offs) as [[sls'|x] ev2]; [|discriminate].
  intros [= <- <-]. rewrite diagnostics_app, (slice_of_diagnostics _ _ _ _ _ _ _ Hsl).
  rewrite (IH _ _ eq_refl). destruct b; reflexivity.
Qed.

Lemma rows_of_diagnostics fs r chans : forall rows evs,
  rows_of fs r chans = (Ok rows, evs) ->
  diagnostics evs = invalid_slices (map (map fst) rows).
Proof.
  induction chans as [|ch chans IH]; simpl; intros rows evs; [by intros [= <- <-]|].
  destruct (files fs !! channel_file r ch) as [bs|]; [|discriminate].
  destruct (row_of r _ bs _) as [[row|x] ev1] eqn:Hrow; [|discriminate].
  destruct (rows_of fs r chans) as [[rows'|x] ev2]; [|discriminate].
  intros [= <- <-].
  change (EvOpen ?f :: ?l) with ([EvOpen f] ++ l).
  rewrite !diagnostics_app, (row_of_diagnostics _ _ _ _ _ _ Hrow), (IH _ _ eq_refl).
  unfold invalid_slices. cbn [map concat]. rewrite List.filter_app, length_app.
  change (diagnostics [EvOpen (channel_file r ch)]) with 0%nat.
  change (diagnostics [EvClose (channel_file r ch)]) with 0%nat. lia.
Qed.

(** X5: a binary read that returns has printed exactly one diagnostic per
    invalid slice: the number of printed lines in its log is the number of
    False entries of its mask. *)
Theorem one_diagnostic_per_invalid_slice fs r t m s' :
  registered (file_format r) ->
  run (read_binary fs) r = (Ok (t, m), s') ->
  diagnostics (log s') = invalid_slices m.
Proof.
  intros Hreg. unfold run. rewrite read_binary_eq by done. cbn [self log].
  unfold binary_result.
  destruct (resolved fs r) as [[r'|x] evs] eqn:Hres; [|discriminate].
  destruct (rows_of fs r' (channels r')) as [[rows|x] evs'] eqn:Hrows; [|discriminate].
  intros [= <- <- <-]. cbn [log app]. rewrite diagnostics_app.
  rewrite (rows_of_diagnostics _ _ _ _ _ Hrows).
  assert (diagnostics evs = 0%nat) as ->; [|reflexivity].
  revert Hres. unfold resolved. destruct (read_size r <? 0); [|by intros [= _ <-]].
  destruct (channels r); [discriminate|].
  destruct (files fs !! _); [|discriminate].
  destruct (_ =? 0); [discriminate|]. by intros [= _ <-].
Qed.

Lemma one_diagnostic_per_invalid_slice_witness :
  exists t m s',
    run (read_binary fs_root001) (reader_root001 [-5; 0; 6] 4) = (Ok (t, m), s') /\
    diagnostics (log s') = invalid_slices m /\ invalid_slices m = 2%nat.
Proof.
  assert (exists t m s',
             run (read_binary fs_root001) (reader_root001 [-5; 0; 6] 4) =
               (Ok (t, m), s') /\ invalid_slices m = 2%nat)
    as (t & m & s' & Hrun & Hm)
    by (eexists _, _, _; split; vm_compute; reflexivity).
  exists t, m, s'. split; [exact Hrun|]. split; [|exact Hm].
  exact (one_diagnostic_per_invalid_slice fs_root001 (reader_root001 [-5; 0; 6] 4)
           t m s' int16_format_registered Hrun).
Defined.







(** ** read over the binary backend *)

Lemma read_binary_backend fs r :
  endswith (dataroot r) "h5" = false ->
  run (read fs) r =
  match run (read_binary fs) r with
  | (Ok res, s') => (fst (run (read_assemble res) (self s')), s')
  | (Raise x, s') => (Raise x, s')
  end.
Proof.
  intros Hh5. unfold run. rewrite read_eq. unfold backend. cbn [self].
  by rewrite Hh5.
Qed.

Lemma length_arange n : length (arange n) = Z.to_nat n.
Proof. unfold arange. by rewrite length_map, length_seq. Qed.

Lemma read_binary_reader fs r t m s' :
  registered (file_format r) ->
  run (read_binary fs) r = (Ok (t, m), s') ->
  channels (self s') = channels r /\ start_offsets (self s') = start_offsets r /\
  params_dict (self s') = params_dict r /\
  shape3 t = (length (channels r), length (start_offsets r),
              Z.to_nat (read_size (self s'))).
Proof.
  intros Hreg Hrun.
  destruct (read_binary_cells _ _ _ _ _ Hreg Hrun) as (evs & Hres & Hshape & _).
  destruct (resolved_inv _ _ _ _ Hres) as (_ & Hch & Hoffs & _ & Hp & _).
  auto.
Qed.

(** X7: over the binary backend, read is read_binary followed by the gain
    and the labels: when read_binary returns and the parameters hold a
    float gain and a samplerate, read returns the tensor with every cell
    multiplied by the gain, the mask unchanged, the channels and start
    offsets of the request as labels, the sample axis labelled 0 ..
    read_size - 1 with the read_size the reader holds afterwards, and the
    parameter mapping as attributes; building the labelled tensor never
    fails. *)
Theorem read_scales_and_labels fs r t m s' g sr :
  registered (file_format r) -> endswith (dataroot r) "h5" = false ->
  run (read_binary fs) r = (Ok (t, m), s') ->
  params_dict r !! "gain" = Some (PFloat g) ->
  params_dict r !! "samplerate" = Some sr ->
  run (read fs) r =
    (Ok ({| values := {| shape3 := shape3 t;
                         cells := map (map (map (fun x => fmul x g))) (cells t) |};
            coord_channels := channels r;
            coord_start_offsets := start_offsets r;
            coord_offsets := arange (read_size (self s'));
            coord_samplerate := sr;
            attrs := params_dict r |}, m), s').
Proof.
  intros Hreg Hh5 Hrun Hg Hsr.
  destruct (read_binary_reader _ _ _ _ _ Hreg Hrun) as (Hch & Hoffs & Hp & Hshape).
  rewrite read_binary_backend, Hrun by done. f_equal.
  unfold run, read_assemble, bind, get_self, getitem. cbn [self].
  rewrite Hp, Hg. cbn [ret imul]. rewrite Hsr. cbn [ret].
  unfold new_DataArray. cbn [shape3]. rewrite Hshape, Hch, Hoffs, length_arange.
  by rewrite !Nat.eqb_refl.
Qed.

Lemma read_scales_and_labels_witness :
  exists d m s',
    run (read fs_root001) (reader_root001 [0] (-1)) = (Ok (d, m), s') /\
    coord_offsets d = [0; 1; 2; 3; 4; 5; 6; 7] /\ coord_channels d = ["001"].
Proof.
  assert (exists t m s',
             run (read_binary fs_root001) (reader_root001 [0] (-1)) = (Ok (t, m), s') /\
             arange (read_size (self s')) = [0; 1; 2; 3; 4; 5; 6; 7])
    as (t & m & s' & Hrun & Hrs)
    by (eexists _, _, _; split; vm_compute; reflexivity).
  eexists _, m, s'. split.
  - exact (read_scales_and_labels fs_root001 (reader_root001 [0] (-1)) t m s'
             (float_of_Z 2) (PFloat (float_of_Z 500)) int16_format_registered
             eq_refl Hrun eq_refl eq_refl).
  - split; [exact Hrs | reflexivity].
Defined.

(** X8: over the binary backend the parameters are consulted only after
    all the files have been read: a failure of read_binary is the failure
    of read whatever the parameters hold, and once read_binary has returned,
    a missing gain raises KeyError for gain, a gain that is not a number
    raises TypeError, and a missing samplerate raises KeyError for
    samplerate, in this order. *)
Theorem read_consults_parameters_last fs r :
  registered (file_format r) -> endswith (dataroot r) "h5" = false ->
  (forall x s', run (read_binary fs) r = (Raise x, s') ->
     run (read fs) r = (Raise x, s')) /\
  (forall t m s', run (read_binary fs) r = (Ok (t, m), s') ->
     (params_dict r !! "gain" = None ->
        run (read fs) r = (Raise (KeyError "gain"), s')) /\
     (forall name, params_dict r !! "gain" = Some (PStr name) ->
        run (read fs) r = (Raise TypeError, s')) /\
     (forall g, params_dict r !! "gain" = Some (PFloat g) ->
        params_dict r !! "samplerate" = None ->
        run (read fs) r = (Raise (KeyError "samplerate"), s'))).
Proof.
  intros Hreg Hh5. split.
  - intros x s' Hrun. by rewrite read_binary_backend, Hrun.
  - intros t m s' Hrun.
    destruct (read_binary_reader _ _ _ _ _ Hreg Hrun) as (_ & _ & Hp & _).
    rewrite read_binary_backend, Hrun by done.
    unfold run, read_assemble, bind, get_self, getitem. cbn [self]. rewrite Hp.
    repeat split.
    + by intros ->.
    + by intros name ->.
    + intros g -> Hsr. cbn [ret imul]. by rewrite Hsr.
Qed.

Lemma read_consults_parameters_last_witness :
  exists s',
    run (read fs_root001) reader_no_params = (Raise (KeyError "gain"), s') /\
    EvClose "root.001" ∈ log s'.
Proof.
  assert (exists t m s',
             run (read_binary fs_root001) reader_no_params = (Ok (t, m), s') /\
             log s' = [EvOpen "root.001"; EvClose "root.001"])
    as (t & m & s' & Hrun & Hlog)
    by (eexists _, _, _; split; vm_compute; reflexivity).
  exists s'. split.
  - exact (proj1 (proj2 (read_consults_parameters_last fs_root001 reader_no_params
                           int16_format_registered eq_refl) t m s' Hrun) eq_refl).
  - rewrite Hlog. set_solver.
Defined.

Lemma map_fmul_nan_slice n g : map (fun x => fmul x g) (nan_slice n) = nan_slice n.
Proof.
  unfold nan_slice. induction n as [|n IH]; [reflexivity|].
  cbn [replicate map]. rewrite IH. f_equal.
Qed.

(** X9: the gain never turns an invalid slice into data: in the labelled
    tensor that read returns over the binary backend, a slice whose mask
    entry is False is entirely sentinel, whatever the gain. *)
Theorem invalid_slice_stays_sentinel fs r d m s' c ch e off :
  registered (file_format r) -> endswith (dataroot r) "h5" = false ->
  run (read fs) r = (Ok (d, m), s') ->
  channels r !! c = Some ch -> start_offsets r !! e = Some off ->
  mask_at m c e = Some false ->
  slice_at (values d) c e = Some (nan_slice (Z.to_nat (read_size (self s')))).
Proof.
  intros Hreg Hh5 Hread Hc He Hm.
  rewrite read_binary_backend in Hread by done.
  destruct (run (read_binary fs) r) as [[[t m']|x] s1] eqn:Hrun; [|discriminate].
  destruct (read_binary_reader _ _ _ _ _ Hreg Hrun) as (_ & _ & Hp & _).
  destruct (read_binary_cells _ _ _ _ _ Hreg Hrun) as (evs & _ & _ & Hcells).
  destruct (Hcells c ch e off Hc He) as (bs & [b xs] & ev & _ & Hsl & Hm' & Ht & _).
  assert (s1 = s') as -> by (by injection Hread).
  injection Hread as Hres.
  unfold run, read_assemble, bind, get_self, getitem in Hres. cbn [self] in Hres.
  destruct (params_dict (self s') !! "gain") as [[name|g]|]; try discriminate.
  cbn [ret imul] in Hres.
  destruct (params_dict (self s') !! "samplerate") as [sr|]; [|discriminate].
  cbn [ret] in Hres. unfold new_DataArray in Hres. cbn [shape3] in Hres.
  destruct (shape3 t) as [[d0 d1] d2]. destruct (_ && _); [|discriminate].
  cbn [ret fst] in Hres. injection Hres as <- <-.
  rewrite Hm' in Hm. injection Hm as Hb. cbn [fst snd] in *. subst b.
  pose proof (slice_of_wf _ _ _ _ _ _ Hsl eq_refl) as Hxs. cbn [snd] in Hxs. subst xs.
  unfold slice_at in *. cbn [values set_attrs cells].
  rewrite lookup_map. destruct (cells t !! c) as [row|]; [|discriminate].
  cbn in Ht |- *. rewrite lookup_map, Ht. cbn. f_equal.
  apply map_fmul_nan_slice.
Qed.

Lemma invalid_slice_stays_sentinel_witness :
  exists d m s',
    run (read fs_root001) (reader_root001 [0; 6] 4) = (Ok (d, m), s') /\
    slice_at (values d) 0 1 = Some (nan_slice (Z.to_nat (read_size (self s')))).
Proof.
  assert (exists d m s',
             run (read fs_root001) (reader_root001 [0; 6] 4) = (Ok (d, m), s') /\
             mask_at m 0 1 = Some false)
    as (d & m & s' & Hrun & Hm)
    by (eexists _, _, _; split; vm_compute; reflexivity).
  exists d, m, s'. split; [exact Hrun|].
  exact (invalid_slice_stays_sentinel fs_root001 (reader_root001 [0; 6] 4) d m s'
           0%nat "001" 1%nat 6 int16_format_registered eq_refl Hrun eq_refl eq_refl Hm).
Defined.

(** ** One backend per call *)

Lemma slice_of_file_events r fname bs off res evs :
  slice_of r fname bs off = (res, evs) ->
  Forall (fun ev => is_table_event ev = false) evs.
Proof.
  unfold slice_of. destruct (off <? 0); [intros [= _ <-]; by repeat constructor|].
  destruct (seek_position r off <? 0); [intros [= _ <-]; constructor|].
  destruct (aligned _ _); [|intros [= _ <-]; constructor].
  destruct (_ <? read_size r); intros [= _ <-]; by repeat constructor.
Qed.

Lemma row_of_file_events r fname bs offs : forall res evs,
  row_of r fname bs offs = (res, evs) ->
  Forall (fun ev => is_table_event ev = false) evs.
Proof.
  induction offs as [|off offs IH]; simpl; intros res evs;
    [intros [= _ <-]; constructor|].
  destruct (slice_of r fname bs off) as [[sl|x] ev1] eqn:Hsl.
  2:{ intros [= _ <-]. eauto using slice_of_file_events. }
  destruct (row_of r fname bs offs) as [[sls|x] ev2] eqn:Hrow; intros [= _ <-];
    rewrite Forall_app; eauto using slice_of_file_events.
Qed.

Lemma rows_of_file_events fs r chans : forall res evs,
  rows_of fs r chans = (res, evs) ->
  Forall (fun ev => is_table_event ev = false) evs.
Proof.
  induction chans as [|ch chans IH]; simpl; intros res evs;
    [intros [= _ <-]; constructor|].
  destruct (files fs !! channel_file r ch) as [bs|]; [|intros [= _ <-]; constructor].
  destruct (row_of r _ bs _) as [[row|x] ev1] eqn:Hrow;
    [destruct (rows_of fs r chans) as [[rows|x] ev2] eqn:Hrows|];
    intros [= _ <-];
    rewrite ?Forall_cons, ?Forall_app, ?Forall_cons, ?Forall_nil;
    repeat split; eauto using row_of_file_events.
Qed.

Lemma resolved_file_events fs r res evs :
  resolved fs r = (res, evs) -> Forall (fun ev => is_table_event ev = false) evs.
Proof.
  unfold resolved. destruct (read_size r <? 0); [|intros [= _ <-]; constructor].
  destruct (channels r); [intros [= _ <-]; constructor|].
  destruct (files fs !! _); [|intros [= _ <-]; by repeat constructor].
  destruct (_ =? 0); intros [= _ <-]; by repeat constructor.
Qed.

Lemma run_read_log fs r :
  log (snd (run (read fs) r)) = log (snd (backend fs r {| self := r; log := [] |})).
Proof.
  unfold run. rewrite read_eq. cbn [self].
  destruct (backend fs r _) as [[res|x] s']; reflexivity.
Qed.

(** X10: a call of read runs one backend only: for a dataset root that
    does not end in h5 the log holds no container event, and for one that
    ends in h5 it holds container events only: no channel file is queried,
    opened or read. *)
Theorem read_runs_one_backend fs r :
  registered (file_format r) ->
  (endswith (dataroot r) "h5" = false ->
   Forall (fun ev => is_table_event ev = false) (log (snd (run (read fs) r)))) /\
  (endswith (dataroot r) "h5" = true ->
   Forall (fun ev => is_table_event ev = true) (log (snd (run (read fs) r)))).
Proof.
  intros Hreg. rewrite run_read_log. unfold backend. split; intros ->; cbn [negb].
  - rewrite read_binary_eq by done. cbn [self log]. unfold binary_result.
    destruct (resolved fs r) as [[r'|x] evs] eqn:Hres.
    + destruct (rows_of fs r' (channels r')) as [[rows|x] evs'] eqn:Hrows;
        cbn [snd log app]; apply Forall_app;
        eauto using resolved_file_events, rows_of_file_events.
    + cbn [snd log app]. eauto using resolved_file_events.
  - rewrite read_hdf5_eq. cbn [self snd add_log log app]. unfold hdf5_result.
    destruct (tables fs !! dataroot r); [|constructor].
    destruct (parse_channels (channels r)); [|by repeat constructor].
    destruct (read_size r <? 0); by repeat constructor.
Qed.

Lemma read_runs_one_backend_witness :
  Forall (fun ev => is_table_event ev = false)
    (log (snd (run (read fs_root001) (reader_root001 [0] 4)))) /\
  Forall (fun ev => is_table_event ev = true)
    (log (snd (run (read fs_h5) (reader_h5 ["1"] [0] (-1))))).
Proof.
  split.
  - exact (proj1 (read_runs_one_backend fs_root001 (reader_root001 [0] 4)
                    int16_format_registered) eq_refl).
  - exact (proj2 (read_runs_one_backend fs_h5 (reader_h5 ["1"] [0] (-1))
                    int16_format_registered) eq_refl).
Defined.

(** ** The tabular backend *)

(** X11: the tabular backend never closes the container: every call that
    opened it fails and leaves it open, the opening being the only event of
    its log. Once the channel labels are converted, a call with an
    unresolved read_size fails with NoSuchNodeError at line 118 and a call
    with a resolved read_size with TypeError at line 126. *)
Theorem read_hdf5_leaves_container_open fs r eegfile :
  tables fs !! dataroot r = Some eegfile ->
  is_ok (fst (run (read_hdf5 fs) r)) = false /\
  log (snd (run (read_hdf5 fs) r)) = [EvOpenTable (dataroot r)] /\
  forall wanted, parse_channels (channels r) = Some wanted ->
    fst (run (read_hdf5 fs) r) =
      Raise (if read_size r <? 0 then NoSuchNodeError else TypeError).
Proof.
  intros Ht. unfold run. rewrite read_hdf5_eq. cbn [self fst snd add_log log app].
  unfold hdf5_result. rewrite Ht. repeat split.
  - destruct (parse_channels (channels r)); [|reflexivity].
    destruct (read_size r <? 0); reflexivity.
  - destruct (parse_channels (channels r)); [|reflexivity].
    destruct (read_size r <? 0); reflexivity.
  - intros wanted ->. destruct (read_size r <? 0); reflexivity.
Qed.

Lemma read_hdf5_leaves_container_open_witness :
  log (snd (run (read_hdf5 fs_h5) (reader_h5 ["one"] [0] (-1)))) =
    [EvOpenTable "data.h5"] /\
  fst (run (read_hdf5 fs_h5) (reader_h5 ["1"] [0] (-1))) = Raise NoSuchNodeError /\
  log (snd (run (read_hdf5 fs_h5) (reader_h5 ["1"] [0] (-1)))) =
    [EvOpenTable "data.h5"].
Proof.
  split; [|split].
  - exact (proj1 (proj2 (read_hdf5_leaves_container_open fs_h5
                           (reader_h5 ["one"] [0] (-1)) table_2x8 eq_refl))).
  - exact (proj2 (proj2 (read_hdf5_leaves_container_open fs_h5
                           (reader_h5 ["1"] [0] (-1)) table_2x8 eq_refl))
             [1] eq_refl).
  - exact (proj1 (proj2 (read_hdf5_leaves_container_open fs_h5
                           (reader_h5 ["1"] [0] (-1)) table_2x8 eq_refl))).
Defined.

(** X12: the tabular backend never looks at the start offsets: the
    outcome of read_hdf5 and the events it logs are the same for every list
    of start offsets. *)
Theorem read_hdf5_ignores_start_offsets fs r offs :
  fst (run (read_hdf5 fs) (set_start_offsets offs r)) = fst (run (read_hdf5 fs) r) /\
  log (snd (run (read_hdf5 fs) (set_start_offsets offs r))) =
    log (snd (run (read_hdf5 fs) r)).
Proof.
  unfold run. rewrite !read_hdf5_eq. cbn [self fst snd add_log log].
  unfold hdf5_result. cbn [dataroot channels read_size set_start_offsets].
  split; reflexivity.
Qed.

Lemma read_hdf5_ignores_start_offsets_witness :
  fst (run (read_hdf5 fs_h5) (reader_h5 ["1"] [3; -7; 100] 4)) =
    fst (run (read_hdf5 fs_h5) (reader_h5 ["1"] [0] 4)) /\
  fst (run (read_hdf5 fs_h5) (reader_h5 ["1"] [0] 4)) = Raise TypeError.
Proof.
  split; [|vm_compute; reflexivity].
  exact (proj1 (read_hdf5_ignores_start_offsets fs_h5 (reader_h5 ["1"] [0] 4)
                  [3; -7; 100])).
Defined.

(** ** Construction *)

(** X15: construction with a format name of the table stores that
    format's byte width and struct code, the request and the parameter
    mapping as given, and warns about nothing; the names of one format
    (single and float32, short and int16, double and float64) build the same
    reader. *)
Theorem construction_with_listed_format root chans offs rs params name f :
  params !! "format" = Some (PStr name) ->
  dict_get file_format_dict name = Some f ->
  new_reader root chans offs rs params =
    (Ok {| dataroot := root; channels := chans; start_offsets := offs;
           read_size := rs; file_format := f; params_dict := params |}, []) /\
  dict_get file_format_dict "single" = dict_get file_format_dict "float32" /\
  dict_get file_format_dict "short" = dict_get file_format_dict "int16" /\
  dict_get file_format_dict "double" = dict_get file_format_dict "float64".
Proof.
  intros Hfmt Hf. split; [|repeat split].
  unfold new_reader, init_body, bind, modify_self, try_except_KeyError, get_self,
    getitem. cbn [self log params_dict set_params_dict set_file_format init_attrs].
  rewrite Hfmt. unfold ret, format_dict_getitem. rewrite Hf. reflexivity.
Qed.

Lemma construction_with_listed_format_witness :
  new_reader "root" ["001"] [0] 4 (<[ "format" := PStr "double" ]> params_gain2) =
    (Ok {| dataroot := "root"; channels := ["001"]; start_offsets := [0];
           read_size := 4;
           file_format := {| data_size := 8; format_string := "d" |};
           params_dict := <[ "format" := PStr "double" ]> params_gain2 |}, []).
Proof.
  exact (proj1 (construction_with_listed_format "root" ["001"] [0] 4
                  (<[ "format" := PStr "double" ]> params_gain2) "double"
                  {| data_size := 8; format_string := "d" |} eq_refl eq_refl)).
Defined.

(** X16: in every entry of the format table the byte width is positive
    and is the size struct gives the entry's code, so the positions the
    reader seeks to and the number of bytes it asks for are whole samples of
    the format it decodes. *)
Theorem format_table_widths_match_codes name f :
  dict_get file_format_dict name = Some f ->
  0 < data_size f /\
  struct_item_size (format_string f) = Some (Z.to_nat (data_size f)).
Proof. intros H. apply registered_size. by exists name. Qed.

Lemma format_table_widths_match_codes_witness :
  0 < 4 /\ struct_item_size "i" = Some (Z.to_nat 4).
Proof.
  exact (format_table_widths_match_codes "int32"
           {| data_size := 4; format_string := "i" |} eq_refl).
Defined.

(** ** What a valid slice holds *)

Lemma chunks_lookup count size : forall data i,
  (i < count)%nat ->
  chunks count size data !! i = Some (take size (drop (i * size) data)).
Proof.
  induction count as [|count IH]; intros data i Hi; [lia|].
  destruct i as [|i]; simpl; [reflexivity|].
  rewrite IH by lia. by rewrite drop_drop.
Qed.

Lemma take_drop_take {A} (l : list A) k n a :
  (n + k <= a)%nat -> take k (drop n (take a l)) = take k (drop n l).
Proof.
  intros H. rewrite !take_drop_commute, take_take. by rewrite Nat.min_l by lia.
Qed.

(** X17: when the byte position of the start offset (byte width times
    offset) fits an int64, sample i of a valid slice is the sample
    offset + i of the channel file: the value decoded from the bytes of the
    file that start at byte (offset + i) times the byte width. *)
Theorem valid_slice_holds_file_samples fs r t m s' c ch e off bs xs i :
  registered (file_format r) ->
  run (read_binary fs) r = (Ok (t, m), s') ->
  channels r !! c = Some ch -> start_offsets r !! e = Some off ->
  files fs !! channel_file r ch = Some bs ->
  mask_at m c e = Some true -> slice_at t c e = Some xs ->
  fits_int64 r off ->
  (i < length xs)%nat ->
  0 <= off /\
  xs !! i =
    Some (decode_item (format_string (file_format r))
            (take (Z.to_nat (data_size (file_format r)))
               (drop (Z.to_nat (data_size (file_format r) * (off + Z.of_nat i))) bs))).
Proof.
  intros Hreg Hrun Hc He Hf Hm Ht Hfit Hi.
  destruct (read_binary_cells _ _ _ _ _ Hreg Hrun) as (evs & Hres & _ & Hcells).
  destruct (resolved_inv _ _ _ _ Hres) as (_ & _ & _ & Hfmt & _ & Hrs & _).
  destruct (registered_size _ Hreg) as [Hds _]. specialize (Hrs Hds).
  destruct (Hcells c ch e off Hc He) as (bs' & [b xs'] & ev & Hf' & Hsl & Hm' & Ht' & _).
  rewrite Hf in Hf'. injection Hf' as <-.
  rewrite Hm in Hm'. injection Hm' as <-. rewrite Ht in Ht'. injection Ht' as <-.
  cbn [fst snd] in *.
  assert (length xs = Z.to_nat (read_size (self s'))) as Hlen
    by (eapply slice_of_length; [by rewrite Hfmt| |exact Hsl]; done).
  assert (0 <= off) as Hoff.
  { destruct (Z.ltb_spec off 0) as [Hneg|]; [|done].
    rewrite slice_of_negative in Hsl by done. discriminate. }
  split; [done|].
  assert (seek_position (self s') off = data_size (file_format r) * off) as Hpos.
  { rewrite <- Hfmt. apply seek_position_fits; [by rewrite Hfmt|done|].
    unfold fits_int64 in *. by rewrite Hfmt. }
  revert Hsl. unfold slice_of. rewrite (proj2 (Z.ltb_ge _ _) Hoff).
  destruct (seek_position (self s') off <? 0); [discriminate|].
  destruct (aligned _ _); [|discriminate].
  destruct (_ <? read_size (self s')); [discriminate|]. intros [= Hxs].
  rewrite <- Hxs. unfold decode_window. rewrite lookup_map, Hfmt.
  pose proof Hi as Hi'. rewrite Hlen in Hi'.
  rewrite <- Hxs, length_decode_window, Hfmt in Hi.
  rewrite chunks_lookup by exact Hi.
  cbn. do 2 f_equal. unfold window. rewrite Hpos, Hfmt.
  rewrite take_drop_take.
  - rewrite drop_drop. do 2 f_equal. apply Nat2Z.inj.
    rewrite Nat2Z.inj_add, Nat2Z.inj_mul, !Z2Nat.id by nia. ring.
  - apply Nat2Z.inj_le.
    rewrite Nat2Z.inj_add, Nat2Z.inj_mul, !Z2Nat.id by nia. nia.
Qed.

Lemma valid_slice_holds_file_samples_witness :
  exists t m s' xs,
    run (read_binary fs_root001) (reader_root001 [0; 4] 4) = (Ok (t, m), s') /\
    slice_at t 0 1 = Some xs /\
    xs !! 2%nat = Some (decode_item "h" (take 2 (drop 12 bytes_1_to_8))).
Proof.
  assert (exists t m s' xs,
             run (read_binary fs_root001) (reader_root001 [0; 4] 4) = (Ok (t, m), s') /\
             mask_at m 0 1 = Some true /\ slice_at t 0 1 = Some xs /\
             length xs = 4%nat)
    as (t & m & s' & xs & Hrun & Hm & Ht & Hlen)
    by (eexists _, _, _, _; repeat split; vm_compute; reflexivity).
  exists t, m, s', xs. split; [exact Hrun|]. split; [exact Ht|].
  exact (proj2 (valid_slice_holds_file_samples fs_root001 (reader_root001 [0; 4] 4)
                  t m s' 0%nat "001" 1%nat 4 bytes_1_to_8 xs 2%nat
                  int16_format_registered Hrun eq_refl eq_refl eq_refl Hm Ht
                  ltac:(vm_compute; reflexivity)
                  ltac:(rewrite Hlen; lia))).
Defined.

(** ** Reading back what was written as int16 *)

Lemma byte_of_Z_value z : Z.of_N (Byte.to_N (byte_of_Z z)) = z mod 256.
Proof.
  unfold byte_of_Z. pose proof (Z.mod_pos_bound z 256 ltac:(lia)) as Hb.
  destruct (Byte.of_N (Z.to_N (z mod 256))) as [b|] eqn:E.
  - apply Byte.to_of_N in E. simpl. rewrite E. lia.
  - apply Byte.of_N_None_iff in E. lia.
Qed.

Lemma decode_pack_int16 z :
  -32768 <= z < 32768 -> decode_item "h" (pack_int16 z) = float_of_Z z.
Proof.
  intros Hz. unfold decode_item, pack_int16. cbn [String.eqb Ascii.eqb Bool.eqb].
  cbn [le_unsigned]. rewrite !byte_of_Z_value. f_equal.
  pose proof (Z.div_mod z 256 ltac:(lia)) as Hz1.
  pose proof (Z.mod_pos_bound z 256 ltac:(lia)) as Hb1.
  pose proof (Z.div_mod (z / 256) 256 ltac:(lia)) as Hz2.
  pose proof (Z.mod_pos_bound (z / 256) 256 ltac:(lia)) as Hb2.
  unfold to_signed. change (2 ^ (16 - 1)) with 32768. change (2 ^ 16) with 65536.
  destruct (_ <? 32768) eqn:E; [apply Z.ltb_lt in E | apply Z.ltb_ge in E]; lia.
Qed.

Lemma chunks_pack_int16 zs :
  chunks (length zs) 2 (flat_map pack_int16 zs) = map pack_int16 zs.
Proof.
  induction zs as [|z zs IH]; [reflexivity|].
  cbn [length chunks flat_map pack_int16 app take drop map].
  by rewrite take_0, drop_0, IH.
Qed.

Lemma length_pack_int16 zs :
  length (flat_map pack_int16 zs) = (2 * length zs)%nat.
Proof. induction zs as [|z zs IH]; [reflexivity|]. simpl. rewrite IH. lia. Qed.

(** X18: a channel file written as little-endian int16 samples is read
    back as those samples: for a reader with the int16 format, one channel,
    the start offset 0 and an unresolved read_size, read_binary returns the
    one slice holding exactly the integers that were written, negative ones
    included, with mask True. *)
Theorem read_binary_int16_round_trip fs r ch zs :
  file_format r = int16_format -> channels r = [ch] -> start_offsets r = [0] ->
  read_size r < 0 ->
  Forall (fun z => -32768 <= z < 32768) zs ->
  files fs !! channel_file r ch = Some (flat_map pack_int16 zs) ->
  fst (run (read_binary fs) r) =
    Ok ({| shape3 := (1%nat, 1%nat, length zs);
           cells := [[map float_of_Z zs]] |}, [[true]]).
Proof.
  intros Hfmt Hch Hoffs Hrs Hzs Hf.
  assert (registered (file_format r)) as Hreg
    by (rewrite Hfmt; apply int16_format_registered).
  assert (file_format r = {| data_size := 2; format_string := "h" |}) as Hfmt2
    by (rewrite Hfmt; reflexivity).
  unfold run. rewrite read_binary_eq by done. cbn [self]. unfold binary_result.
  rewrite (resolved_negative fs r ch [] (flat_map pack_int16 zs)) by done.
  rewrite length_pack_int16, Hfmt2. cbn [data_size format_string].
  replace (Z.of_nat (2 * length zs) / 2) with (Z.of_nat (length zs))
    by (rewrite Nat2Z.inj_mul, Z.mul_comm, Z.div_mul; lia).
  set (r' := set_read_size (Z.of_nat (length zs)) r).
  assert (slice_of r' (channel_file r ch) (flat_map pack_int16 zs) 0 =
          (Ok (true, map float_of_Z zs), [])) as Hsl.
  { assert (seek_position r' 0 = 0) as Hpos
      by (unfold seek_position; by rewrite Z.mul_0_r).
    unfold slice_of. rewrite Hpos. cbn [Z.ltb Z.compare].
    assert (window r' (flat_map pack_int16 zs) 0 = flat_map pack_int16 zs) as ->.
    { unfold window. rewrite Hpos. unfold r'.
      cbn [file_format read_size set_read_size]. rewrite Hfmt2.
      cbn [data_size format_string].
      cbn [Z.to_nat drop]. apply take_ge. rewrite length_pack_int16. lia. }
    assert (Z.quot (Z.of_nat (length (flat_map pack_int16 zs))) 2 =
            Z.of_nat (length zs)) as Hq.
    { rewrite length_pack_int16, Z.quot_div_nonneg by lia.
      rewrite Nat2Z.inj_mul, Z.mul_comm, Z.div_mul; lia. }
    assert (decode_window r' (flat_map pack_int16 zs) = map float_of_Z zs) as Hdec.
    { unfold decode_window, r'. cbn [file_format set_read_size]. rewrite Hfmt2.
      cbn [data_size format_string].
      rewrite Hq, Nat2Z.id. change (Z.to_nat 2) with 2%nat.
      rewrite chunks_pack_int16, List.map_map. apply map_ext_in.
      intros z Hz. apply decode_pack_int16.
      rewrite Forall_forall in Hzs. apply Hzs. by apply list_elem_of_In. }
    unfold aligned. unfold r' at 1 2. cbn [file_format set_read_size]. rewrite Hfmt2.
    cbn [data_size format_string].
    rewrite Hq, length_pack_int16.
    rewrite (proj2 (Z.eqb_eq _ _)) by lia.
    rewrite Hdec, length_map. unfold r' at 1. cbn [read_size set_read_size].
    by rewrite Z.ltb_irrefl. }
  unfold r' at 2. cbn [channels set_read_size]. rewrite Hch. cbn [rows_of].
  change (channel_file r' ch) with (channel_file r ch). rewrite Hf.
  unfold r' at 2. cbn [start_offsets set_read_size]. rewrite Hoffs. cbn [row_of].
  rewrite Hsl. cbn [fst]. unfold arrays_of_rows, r'.
  cbn [channels start_offsets read_size set_read_size map fst snd].
  by rewrite Hch, Hoffs, Nat2Z.id.
Qed.

Lemma read_binary_int16_round_trip_witness :
  fst (run (read_binary
              {| files := {[ "root.001" := flat_map pack_int16 [-32768; -1; 0; 32767] ]};
                 tables := ∅ |})
         (reader_root001 [0] (-1))) =
    Ok ({| shape3 := (1%nat, 1%nat, 4%nat);
           cells := [[map float_of_Z [-32768; -1; 0; 32767]]] |}, [[true]]).
Proof.
  apply (read_binary_int16_round_trip _ (reader_root001 [0] (-1)) "001"
           [-32768; -1; 0; 32767]); try reflexivity.
  repeat constructor; lia.
Defined.

(** ** The order in which channel files are opened *)

Lemma opened_files_app l1 l2 :
  opened_files (l1 ++ l2) = opened_files l1 ++ opened_files l2.
Proof. apply omap_app. Qed.

Lemma slice_of_opens_nothing r fname bs off res evs :
  slice_of r fname bs off = (res, evs) -> opened_files evs = [].
Proof.
  unfold slice_of. destruct (off <? 0); [by intros [= _ <-]|].
  destruct (seek_position r off <? 0); [by intros [= _ <-]|].
  destruct (aligned _ _); [|by intros [= _ <-]].
  destruct (_ <? read_size r); by intros [= _ <-].
Qed.

Lemma row_of_opens_nothing r fname bs offs : forall res evs,
  row_of r fname bs offs = (res, evs) -> opened_files evs = [].
Proof.
  induction offs as [|off offs IH]; simpl; intros res evs; [by intros [= _ <-]|].
  destruct (slice_of r fname bs off) as [[sl|x] ev1] eqn:Hsl.
  2:{ intros [= _ <-]. eauto using slice_of_opens_nothing. }
  destruct (row_of r fname bs offs) as [[sls|x] ev2] eqn:Hrow; intros [= _ <-];
    rewrite opened_files_app, (slice_of_opens_nothing _ _ _ _ _ _ Hsl),
      (IH _ _ eq_refl); reflexivity.
Qed.

Lemma rows_of_opens_in_order fs r chans : forall res evs,
  rows_of fs r chans = (res, evs) ->
  opened_files evs `prefix_of` map (channel_file r) chans /\
  (is_ok res = true -> opened_files evs = map (channel_file r) chans).
Proof.
  induction chans as [|ch chans IH]; simpl; intros res evs.
  { intros [= <- <-]. split; [apply prefix_nil | reflexivity]. }
  destruct (files fs !! channel_file r ch) as [bs|].
  2:{ intros [= <- <-]. split; [apply prefix_nil | discriminate]. }
  destruct (row_of r _ bs _) as [[row|x] ev1] eqn:Hrow.
  2:{ intros [= <- <-]. split; [|discriminate].
      change (EvOpen ?f :: ?l) with ([EvOpen f] ++ l).
      rewrite !opened_files_app, (row_of_opens_nothing _ _ _ _ _ _ Hrow).
      cbn. apply prefix_cons, prefix_nil. }
  destruct (rows_of fs r chans) as [[rows|x] ev2] eqn:Hrows; intros [= <- <-];
    destruct (IH _ _ eq_refl) as [Hpre Hall];
    change (EvOpen ?f :: ?l) with ([EvOpen f] ++ l);
    rewrite !opened_files_app, (row_of_opens_nothing _ _ _ _ _ _ Hrow); cbn;
    (split; [by apply prefix_cons | intros Hok; f_equal; auto]).
Qed.

(** X19: the binary backend opens the channel files in the order of the
    request and stops at the first failure: in the log of every call the
    files opened are, in order, a prefix of the requested channels' files
    (no file of a later channel is opened once a channel has failed), and
    all of them when the call returns. *)
Theorem read_binary_opens_in_request_order fs r :
  registered (file_format r) ->
  opened_files (log (snd (run (read_binary fs) r)))
    `prefix_of` map (channel_file r) (channels r) /\
  (is_ok (fst (run (read_binary fs) r)) = true ->
   opened_files (log (snd (run (read_binary fs) r))) =
     map (channel_file r) (channels r)).
Proof.
  intros Hreg. unfold run. rewrite read_binary_eq by done. cbn [self log].
  unfold binary_result.
  destruct (resolved fs r) as [[r'|x] evs] eqn:Hres.
  - assert (opened_files evs = []) as Hevs.
    { revert Hres. unfold resolved. destruct (read_size r <? 0); [|by intros [= _ <-]].
      destruct (channels r); [discriminate|].
      destruct (files fs !! _); [|discriminate].
      destruct (_ =? 0); [discriminate|]. by intros [= _ <-]. }
    destruct (resolved_inv _ _ _ _ Hres) as (Hroot & Hch & _).
    assert (map (channel_file r') (channels r') = map (channel_file r) (channels r))
      as Hnames.
    { rewrite Hch. apply map_ext. intros ch. unfold channel_file. by rewrite Hroot. }
    destruct (rows_of fs r' (channels r')) as [[rows|x] evs'] eqn:Hrows;
      destruct (rows_of_opens_in_order _ _ _ _ _ Hrows) as [Hpre Hall];
      cbn [fst snd log app]; rewrite opened_files_app, Hevs, <- Hnames; cbn [app];
      split; auto.
  - cbn [fst snd log app]. split; [|discriminate].
    assert (opened_files evs = []) as ->; [|apply prefix_nil].
    revert Hres. unfold resolved. destruct (read_size r <? 0); [|discriminate].
    destruct (channels r); [by intros [= _ <-]|].
    destruct (files fs !! _); [|by intros [= _ <-]].
    destruct (_ =? 0); [by intros [= _ <-]|discriminate].
Qed.

Lemma read_binary_opens_in_request_order_witness :
  is_ok (fst (run (read_binary fs_root001) (reader_two_channels [0] 4))) = false /\
  opened_files (log (snd (run (read_binary fs_root001) (reader_two_channels [0] 4))))
    `prefix_of` ["root.001"; "root.002"].
Proof.
  split; [vm_compute; reflexivity|].
  exact (proj1 (read_binary_opens_in_request_order fs_root001
                  (reader_two_channels [0] 4) int16_format_registered)).
Defined.

(** X20: a resolved read_size is never derived again: with a
    non-negative read_size the binary backend queries no file size and
    leaves the reader exactly as it was, whether it returns or raises. *)
Theorem resolved_read_size_is_kept fs r :
  registered (file_format r) -> 0 <= read_size r ->
  self (snd (run (read_binary fs) r)) = r /\
  size_queries (log (snd (run (read_binary fs) r))) = 0%nat.
Proof.
  intros Hreg Hrs. unfold run. rewrite read_binary_eq by done. cbn [self log].
  unfold binary_result. rewrite resolved_nonneg by done.
  destruct (rows_of fs r (channels r)) as [[rows|x] evs'] eqn:Hrows;
    cbn [snd self log app]; eauto using rows_of_quiet.
Qed.

Lemma resolved_read_size_is_kept_witness :
  self (snd (run (read_binary fs_root001) (reader_root001 [0; 6] 4))) =
    reader_root001 [0; 6] 4 /\
  size_queries (log (snd (run (read_binary fs_root001) (reader_root001 [0; 6] 4)))) =
    0%nat.
Proof.
  exact (resolved_read_size_is_kept fs_root001 (reader_root001 [0; 6] 4)
           int16_format_registered ltac:(simpl; lia)).
Defined.

(** ** Start offsets whose byte position does not fit an int64 *)

(** X21: the position of a seek is an int64 product and wraps around. At
    the start offset 2^62 the byte position of an int16 file wraps to -2^63:
    the seek is refused and the call fails, the file closed. In an int32
    file the position wraps to 0: the first sample of the file is read and
    the slice is marked valid, although the offset lies far beyond the end
    of the file. *)
Theorem seek_position_wraps_around :
  seek_position (reader_root001 [2 ^ 62] 4) (2 ^ 62) = - 2 ^ 63 /\
  run (read_binary fs_root001) (reader_root001 [2 ^ 62] 4) =
    (Raise (OSError "root.001"),
     {| self := reader_root001 [2 ^ 62] 4;
        log := [EvOpen "root.001"; EvClose "root.001"] |}) /\
  seek_position (reader_int32 [-5; 2 ^ 62] 1) (2 ^ 62) = 0 /\
  fst (run (read_binary fs_one_int32) (reader_int32 [-5; 2 ^ 62] 1)) =
    Ok ({| shape3 := (1%nat, 2%nat, 1%nat);
           cells := [[[nan]; [float_of_Z 5]]] |}, [[false; true]]).
Proof. repeat split; vm_compute; reflexivity. Qed.

Lemma seek_position_wraps_around_witness :
  is_ok (fst (run (read_binary fs_root001) (reader_root001 [2 ^ 62] 4))) = false.
Proof.
  destruct seek_position_wraps_around as (_ & Hrun & _).
  rewrite Hrun. reflexivity.
Defined.
